(** * Debounce filter and edge detector: embedding and verified properties

    The repository holds two small C components, each in two successive
    iterations:

    - the debounce filter, v1.1 (initial sample, fallback for a null
      [time_ref]) and v1.0 (no initial sample, no fallback);
    - the edge detector, the "advanced" version (classification enum,
      counters, callback) and the first version ([edge_rise], [edge_fall],
      [edge_both] stepping [prev] independently).

    Every C function is translated into a computation of ExtLib's state
    monad over a _machine_: the instance struct the pointer argument refers
    to, the caller's environment on which the user-supplied function
    pointers act, and the log of the calls made through those pointers.

    Conventions.
    - [uint8_t] and [uint32_t] values are integers of [Z]; the only
      arithmetic the code performs on them is [rise_count++] and
      [fall_count++], whose wrap-around at 32 bits is written out.
    - A pointer argument is [NULL] or [REF], the address of the instance
      held in the machine.
    - A user function reached through a function pointer reads and writes
      the caller's environment [W] only; it does not touch the instance it
      is stored in (the components are not re-entrant). *)

From Stdlib Require Import ZArith List Bool Lia.
From ExtLib Require Import Structures.Monad Structures.MonadState.
From ExtLib Require Import Data.Monads.StateMonad.
Import ListNotations.
Import MonadNotation.
Local Open Scope monad_scope.
Local Open Scope Z_scope.

(** ** Machine integers and pointers *)

(** Range of a [uint8_t]. *)
Definition is_u8 (x : Z) : Prop := 0 <= x < 256.

(** Range of a [uint32_t]. *)
Definition is_u32 (x : Z) : Prop := 0 <= x < 2 ^ 32.

(** [x++] on a [uint32_t]. *)
Definition incr_u32 (x : Z) : Z := (x + 1) mod 2 ^ 32.

(** Value of a C comparison: 1 when it holds, 0 otherwise. *)
Definition of_bool (b : bool) : Z := if b then 1 else 0.

(** [x != 0] as a value: the normalization of a sample to 0 or 1. *)
Definition neq0 (x : Z) : Z := of_bool (negb (x =? 0)).

(** Truth of a C scalar in a condition: non-zero. *)
Definition truthy (x : Z) : bool := negb (x =? 0).

(** The instance pointer handed to every entry point. *)
Inductive ptr : Type :=
| NULL
| REF.

(** Runs a C statement sequence on a start machine: (returned value,
    final machine). *)
Definition run {S A : Type} (c : state S A) (s : S) : A * S := runState c s.

(** Feeds the samples [xs] one per call to the stepping operation [step],
    as the caller's polling loop does; returns the values of the calls in
    order. *)
Fixpoint feed {S A : Type} (step : Z -> state S A) (xs : list Z)
  : state S (list A) :=
  match xs with
  | [] => ret []
  | x :: xs' =>
      r <- step x ;;
      rs <- feed step xs' ;;
      ret (r :: rs)
  end.

(** ** Debounce filter *)

Module Debounce.

(** The struct [Debounce]: two [uint8_t] fields and [time_ref], a
    pointer to a function of no argument returning [uint8_t]; [None] is
    the null function pointer. *)
Record Debounce (W : Type) : Type := mkDebounce {
  prev_input : Z;
  stable_output : Z;
  time_ref : option (W -> Z * W)
}.
Arguments mkDebounce {W} _ _ _.
Arguments prev_input {W} _.
Arguments stable_output {W} _.
Arguments time_ref {W} _.

(** The instance, the caller's environment, and the values returned by
    the calls of [time_ref] made so far (one entry per call). *)
Record machine (W : Type) : Type := mkMachine {
  cell : Debounce W;
  env : W;
  calls : list Z
}.
Arguments mkMachine {W} _ _ _.
Arguments cell {W} _.
Arguments env {W} _.
Arguments calls {W} _.

Section Access.
Context {W : Type}.

(** [d->prev_input] *)
Definition load_prev_input : state (machine W) Z :=
  gets (fun m => prev_input (cell m)).

(** [d->stable_output] *)
Definition load_stable_output : state (machine W) Z :=
  gets (fun m => stable_output (cell m)).

(** [d->time_ref] *)
Definition load_time_ref : state (machine W) (option (W -> Z * W)) :=
  gets (fun m => time_ref (cell m)).

(** [d->prev_input = v;] *)
Definition store_prev_input (v : Z) : state (machine W) unit :=
  modify (fun m =>
    mkMachine (mkDebounce v (stable_output (cell m)) (time_ref (cell m)))
              (env m) (calls m)) ;;
  ret tt.

(** [d->stable_output = v;] *)
Definition store_stable_output (v : Z) : state (machine W) unit :=
  modify (fun m =>
    mkMachine (mkDebounce (prev_input (cell m)) v (time_ref (cell m)))
              (env m) (calls m)) ;;
  ret tt.

(** [d->time_ref = f;] *)
Definition store_time_ref (f : option (W -> Z * W))
  : state (machine W) unit :=
  modify (fun m =>
    mkMachine (mkDebounce (prev_input (cell m)) (stable_output (cell m)) f)
              (env m) (calls m)) ;;
  ret tt.

(** The call [f()] through a non-null [time_ref]: the user function
    runs on the environment and the returned value is logged. *)
Definition call_time_ref (f : W -> Z * W) : state (machine W) Z :=
  m <- get ;;
  let (r, e) := f (env m) in
  put (mkMachine (cell m) e (calls m ++ [r])) ;;
  ret r.
End Access.

(** *** Version 1.1: initial sample and null-[time_ref] fallback *)
Module V1_1.
Section Code.
Context {W : Type}.

Definition debounce_init (d : ptr) (time_ref : option (W -> Z * W))
           (initial_input : Z) : state (machine W) unit :=
  match d with
  | NULL => ret tt
  | REF =>
      store_prev_input (neq0 initial_input) ;;
      p <- load_prev_input ;;
      store_stable_output p ;;
      store_time_ref time_ref
  end.

(** Only called with the non-null [d] of [debounce_update]. *)
Definition _debounce_time_ready : state (machine W) Z :=
  t <- load_time_ref ;;
  match t with
  | None => ret 1
  | Some f => call_time_ref f
  end.

Definition debounce_update (d : ptr) (input : Z)
  : state (machine W) Z :=
  match d with
  | NULL => ret 0
  | REF =>
      let input := neq0 input in
      p <- load_prev_input ;;
      if negb (input =? p) then
        store_prev_input input ;;
        _debounce_time_ready ;;
        load_stable_output
      else
        r <- _debounce_time_ready ;;
        (if truthy r then store_stable_output input else ret tt) ;;
        load_stable_output
  end.
End Code.
End V1_1.

(** *** Version 1.0: starts from 0, a null [time_ref] is never ready *)
Module V1_0.
Section Code.
Context {W : Type}.

Definition debounce_init (d : ptr) (time_ref : option (W -> Z * W))
  : state (machine W) unit :=
  match d with
  | NULL => ret tt
  | REF =>
      store_prev_input 0 ;;
      store_stable_output 0 ;;
      store_time_ref time_ref
  end.

Definition debounce_update (d : ptr) (input : Z)
  : state (machine W) Z :=
  match d with
  | NULL => ret 0
  | REF =>
      let input := neq0 input in
      p <- load_prev_input ;;
      if negb (input =? p) then
        store_prev_input input ;;
        t <- load_time_ref ;;
        match t with
        | Some f => call_time_ref f ;; ret tt
        | None => ret tt
        end ;;
        load_stable_output
      else
        t <- load_time_ref ;;
        ready <- match t with
                 | Some f => r <- call_time_ref f ;; ret (truthy r)
                 | None => ret false
                 end ;;
        (if ready : bool then store_stable_output input else ret tt) ;;
        load_stable_output
  end.
End Code.
End V1_0.

End Debounce.


(** ** Edge detector, advanced version: classification, counters, callback *)

Module Edge.

(** [typedef enum { EDGE_NONE = 0, EDGE_RISING, EDGE_FALLING, EDGE_BOTH }
    EdgeType;] *)
Inductive EdgeType : Type :=
| EDGE_NONE
| EDGE_RISING
| EDGE_FALLING
| EDGE_BOTH.

(** [a == b] on two [EdgeType] values. *)
Definition EdgeType_eqb (a b : EdgeType) : bool :=
  match a, b with
  | EDGE_NONE, EDGE_NONE => true
  | EDGE_RISING, EDGE_RISING => true
  | EDGE_FALLING, EDGE_FALLING => true
  | EDGE_BOTH, EDGE_BOTH => true
  | _, _ => false
  end.

(** The struct [EdgeDetector]: [uint8_t prev], [uint32_t rise_count],
    [uint32_t fall_count] and [on_edge], a pointer to a function taking an
    [EdgeType] and returning nothing; [None] is the null function
    pointer. *)
Record EdgeDetector (W : Type) : Type := mkEdgeDetector {
  prev : Z;
  rise_count : Z;
  fall_count : Z;
  on_edge : option (EdgeType -> W -> W)
}.
Arguments mkEdgeDetector {W} _ _ _ _.
Arguments prev {W} _.
Arguments rise_count {W} _.
Arguments fall_count {W} _.
Arguments on_edge {W} _.

(** The instance, the caller's environment, and the arguments of the calls
    of [on_edge] made so far (one entry per call). *)
Record machine (W : Type) : Type := mkMachine {
  cell : EdgeDetector W;
  env : W;
  calls : list EdgeType
}.
Arguments mkMachine {W} _ _ _.
Arguments cell {W} _.
Arguments env {W} _.
Arguments calls {W} _.

Section Code.
Context {W : Type}.

(** [det->prev] *)
Definition load_prev : state (machine W) Z :=
  gets (fun m => prev (cell m)).

(** [det->rise_count] *)
Definition load_rise_count : state (machine W) Z :=
  gets (fun m => rise_count (cell m)).

(** [det->fall_count] *)
Definition load_fall_count : state (machine W) Z :=
  gets (fun m => fall_count (cell m)).

(** [det->on_edge] *)
Definition load_on_edge : state (machine W) (option (EdgeType -> W -> W)) :=
  gets (fun m => on_edge (cell m)).

(** [det->prev = v;] *)
Definition store_prev (v : Z) : state (machine W) unit :=
  modify (fun m =>
    mkMachine (mkEdgeDetector v (rise_count (cell m)) (fall_count (cell m))
                              (on_edge (cell m)))
              (env m) (calls m)) ;;
  ret tt.

(** [det->rise_count = v;] *)
Definition store_rise_count (v : Z) : state (machine W) unit :=
  modify (fun m =>
    mkMachine (mkEdgeDetector (prev (cell m)) v (fall_count (cell m))
                              (on_edge (cell m)))
              (env m) (calls m)) ;;
  ret tt.

(** [det->fall_count = v;] *)
Definition store_fall_count (v : Z) : state (machine W) unit :=
  modify (fun m =>
    mkMachine (mkEdgeDetector (prev (cell m)) (rise_count (cell m)) v
                              (on_edge (cell m)))
              (env m) (calls m)) ;;
  ret tt.

(** [det->on_edge = f;] *)
Definition store_on_edge (f : option (EdgeType -> W -> W))
  : state (machine W) unit :=
  modify (fun m =>
    mkMachine (mkEdgeDetector (prev (cell m)) (rise_count (cell m))
                              (fall_count (cell m)) f)
              (env m) (calls m)) ;;
  ret tt.

(** The call [f(type)] through a non-null [on_edge]: the user function
    runs on the environment and its argument is logged. *)
Definition call_on_edge (f : EdgeType -> W -> W) (type : EdgeType)
  : state (machine W) unit :=
  modify (fun m => mkMachine (cell m) (f type (env m)) (calls m ++ [type])) ;;
  ret tt.

Definition norm01 (x : Z) : Z := if negb (x =? 0) then 1 else 0.

Definition edge_init (det : ptr) (initial_state : Z)
  : state (machine W) unit :=
  match det with
  | NULL => ret tt
  | REF =>
      store_prev (norm01 initial_state) ;;
      store_rise_count 0 ;;
      store_fall_count 0 ;;
      store_on_edge None
  end.

Definition _edge_invoke_callback (det : ptr) (type : EdgeType)
  : state (machine W) unit :=
  match det with
  | NULL => ret tt
  | REF =>
      f <- load_on_edge ;;
      match f with
      | Some g => call_on_edge g type
      | None => ret tt
      end
  end.

Definition edge_update (det : ptr) (input : Z)
  : state (machine W) EdgeType :=
  match det with
  | NULL => ret EDGE_NONE
  | REF =>
      let current := norm01 input in
      p <- load_prev ;;
      detected <-
        (if (p =? 0) && (current =? 1) then
           n <- load_rise_count ;;
           store_rise_count (incr_u32 n) ;;
           _edge_invoke_callback det EDGE_RISING ;;
           ret EDGE_RISING
         else if (p =? 1) && (current =? 0) then
           n <- load_fall_count ;;
           store_fall_count (incr_u32 n) ;;
           _edge_invoke_callback det EDGE_FALLING ;;
           ret EDGE_FALLING
         else ret EDGE_NONE) ;;
      store_prev current ;;
      ret detected
  end.

Definition edge_both (det : ptr) (input : Z) : state (machine W) Z :=
  match det with
  | NULL => ret 0
  | REF =>
      type <- edge_update det input ;;
      ret (of_bool (negb (EdgeType_eqb type EDGE_NONE)))
  end.

Definition edge_reset (det : ptr) : state (machine W) unit :=
  match det with
  | NULL => ret tt
  | REF =>
      store_rise_count 0 ;;
      store_fall_count 0
  end.

Definition edge_get_rise_count (det : ptr) : state (machine W) Z :=
  match det with
  | NULL => ret 0
  | REF => load_rise_count
  end.

Definition edge_get_fall_count (det : ptr) : state (machine W) Z :=
  match det with
  | NULL => ret 0
  | REF => load_fall_count
  end.

(** The entry points of the advanced version, as one call each. *)
Inductive operation : Type :=
| Initialize (initial_state : Z)
| Classify (input : Z)
| Any (input : Z)
| Reset
| GetRiseCount
| GetFallCount.

(** One call of an entry point on the instance, its return value dropped. *)
Definition perform (o : operation) : state (machine W) unit :=
  match o with
  | Initialize i => edge_init REF i
  | Classify x => edge_update REF x ;; ret tt
  | Any x => edge_both REF x ;; ret tt
  | Reset => edge_reset REF
  | GetRiseCount => edge_get_rise_count REF ;; ret tt
  | GetFallCount => edge_get_fall_count REF ;; ret tt
  end.

End Code.
End Edge.

(** ** Edge detector, first version: three independent stepping queries *)

Module EdgeBasic.

(** The struct [EdgeDetector] of the first version: [uint8_t prev] only.
    No function pointer is involved, so the machine is the struct. *)
Record EdgeDetector : Type := mkEdgeDetector { prev : Z }.

Definition norm01 (x : Z) : Z := if negb (x =? 0) then 1 else 0.

Definition edge_init (det : ptr) (initial_state : Z)
  : state EdgeDetector unit :=
  match det with
  | NULL => ret tt
  | REF => put (mkEdgeDetector (norm01 initial_state))
  end.

Definition edge_rise (det : ptr) (input : Z) : state EdgeDetector Z :=
  match det with
  | NULL => ret 0
  | REF =>
      let current := norm01 input in
      p <- gets prev ;;
      let detected := of_bool (truthy current && (p =? 0)) in
      put (mkEdgeDetector current) ;;
      ret detected
  end.

Definition edge_fall (det : ptr) (input : Z) : state EdgeDetector Z :=
  match det with
  | NULL => ret 0
  | REF =>
      let current := norm01 input in
      p <- gets prev ;;
      let detected := of_bool ((p =? 1) && (current =? 0)) in
      put (mkEdgeDetector current) ;;
      ret detected
  end.

Definition edge_both (det : ptr) (input : Z) : state EdgeDetector Z :=
  match det with
  | NULL => ret 0
  | REF =>
      let current := norm01 input in
      p <- gets prev ;;
      let detected := of_bool (negb (current =? p)) in
      put (mkEdgeDetector current) ;;
      ret detected
  end.

End EdgeBasic.

(** ** Vocabulary of the properties *)

Section Vocabulary.
Context {W : Type}.

(** A timing function that reports "stable" on every call. *)
Definition always_true (f : W -> Z * W) : Prop :=
  forall w, fst (f w) <> 0.

(** A timing function that reports "unstable" on every call. *)
Definition always_false (f : W -> Z * W) : Prop :=
  forall w, fst (f w) = 0.

(** The readiness seen by version 1.1 holds on every query: [time_ref] is
    null (the fallback answers 1) or always true. *)
Definition always_ready (t : option (W -> Z * W)) : Prop :=
  match t with
  | None => True
  | Some f => always_true f
  end.

(** The debounce machine a caller starts from: an instance holding [d],
    environment [w], nothing logged. *)
Definition debounce_start (d : Debounce.Debounce W) (w : W)
  : Debounce.machine W :=
  Debounce.mkMachine d w [].

(** The edge machine a caller starts from. *)
Definition edge_start (d : Edge.EdgeDetector W) (w : W) : Edge.machine W :=
  Edge.mkMachine d w [].

End Vocabulary.

(** [raws] are the normalized samples and [outs] the outputs, both with
    the initial value first.  The output of a call is the sample of that
    call when the sample repeats the previous one, and the previous output
    otherwise: a change shows in the output one call later, provided the
    sample holds. *)
Definition one_call_latency (raws outs : list Z) : Prop :=
  length outs = length raws /\
  forall k : nat, (S k < length raws)%nat ->
    nth (S k) outs 0 =
      if nth (S k) raws 0 =? nth k raws 0 then nth (S k) raws 0
      else nth k outs 0.

(** A counter value [new] is not below [old], the wrap of [old + 1] from
    [2^32 - 1] to 0 aside. *)
Definition not_decreased (old new : Z) : Prop :=
  old <= new \/ new = incr_u32 old.

(** The struct of the first version that has the [prev] of an advanced
    one. *)
Definition basic_of {W : Type} (d : Edge.EdgeDetector W)
  : EdgeBasic.EdgeDetector :=
  EdgeBasic.mkEdgeDetector (Edge.prev d).

(** A timing function that reports "stable" and counts its calls in the
    environment. *)
Definition tick_ready (n : nat) : Z * nat := (1, S n).

(** A timing function that reports "unstable" and counts its calls. *)
Definition tick_busy (n : nat) : Z * nat := (0, S n).

(** A debounce machine at rest on 0 with the counting "stable" timing
    function and no call made yet. *)
Definition idle_low : Debounce.machine nat :=
  debounce_start (Debounce.mkDebounce 0 0 (Some tick_ready)) 0%nat.

(** All the calls of a run over the samples [xs] returned [v] and the run
    left [stable_output] at [v]; [out] is the list of returned values and
    the machine after the run.  Holding of every run, it holds of every
    prefix of a run: [stable_output] is [v] after each call. *)
Definition frozen_at {W : Type} (v : Z) (xs : list Z)
           (out : list Z * Debounce.machine W) : Prop :=
  length (fst out) = length xs /\
  Forall (fun r => r = v) (fst out) /\
  Debounce.stable_output (Debounce.cell (snd out)) = v.

(** What a call of the debounce update on machine [m] with sample [x] must
    leave when the normalized sample differs from [prev_input]: [out] is
    the returned value and the machine after the call. *)
Definition raw_change_effect {W : Type} (m : Debounce.machine W) (x : Z)
           (out : Z * Debounce.machine W) : Prop :=
  let d := Debounce.cell m in
  let d' := Debounce.cell (snd out) in
  fst out = Debounce.stable_output d /\
  Debounce.prev_input d' = neq0 x /\
  Debounce.stable_output d' = Debounce.stable_output d /\
  Debounce.time_ref d' = Debounce.time_ref d /\
  match Debounce.time_ref d with
  | None =>
      Debounce.calls (snd out) = Debounce.calls m /\
      Debounce.env (snd out) = Debounce.env m
  | Some f =>
      Debounce.calls (snd out) =
        Debounce.calls m ++ [fst (f (Debounce.env m))] /\
      Debounce.env (snd out) = snd (f (Debounce.env m))
  end.

(** The classification of a sample, from the [prev] found and the
    normalized sample [c], as [edge_update] branches on them. *)
Definition edge_between (p c : Z) : Edge.EdgeType :=
  if (p =? 0) && (c =? 1) then Edge.EDGE_RISING
  else if (p =? 1) && (c =? 0) then Edge.EDGE_FALLING
  else Edge.EDGE_NONE.

(** The machine left by [edge_update] after a detected edge of type [t]:
    [prev] set to [c], the counters set to [rc] and [fc], and the callback,
    if one is assigned, run once with [t]. *)
Definition notified {W : Type} (m : Edge.machine W) (c rc fc : Z)
           (t : Edge.EdgeType) : Edge.machine W :=
  let d := Edge.cell m in
  match Edge.on_edge d with
  | Some g =>
      Edge.mkMachine (Edge.mkEdgeDetector c rc fc (Some g))
                     (g t (Edge.env m)) (Edge.calls m ++ [t])
  | None =>
      Edge.mkMachine (Edge.mkEdgeDetector c rc fc None)
                     (Edge.env m) (Edge.calls m)
  end.

(** The entry points that set the counters to 0. *)
Definition clears_counters (o : Edge.operation) : bool :=
  match o with
  | Edge.Initialize _ | Edge.Reset => true
  | _ => false
  end.

(** A callback that counts its calls in the environment. *)
Definition count_edges (t : Edge.EdgeType) (n : nat) : nat := S n.

(** An edge machine that has seen five rising and three falling edges and
    rests on 0, the counting callback assigned. *)
Definition seen_edges : Edge.machine nat :=
  edge_start (Edge.mkEdgeDetector 0 5 3 (Some count_edges)) 8%nat.

(** ** Vocabulary of the further properties *)

(** A normalized value: 0 or 1. *)
Definition binary (x : Z) : Prop := x = 0 \/ x = 1.

(** Every sample of [xs] differs, once normalized, from the one before
    it, the first from [p]: the input bounces on every call. *)
Fixpoint bouncing (p : Z) (xs : list Z) : Prop :=
  match xs with
  | [] => True
  | x :: xs' => neq0 x <> p /\ bouncing (neq0 x) xs'
  end.

(** Version 1.1 would accept a repeated sample on machine [m] now: its
    [time_ref] is null or answers non-zero on the current environment. *)
Definition ready_v1_1 {W : Type} (m : Debounce.machine W) : Prop :=
  match Debounce.time_ref (Debounce.cell m) with
  | None => True
  | Some f => fst (f (Debounce.env m)) <> 0
  end.

(** Version 1.0 would accept a repeated sample on machine [m] now: its
    [time_ref] is assigned and answers non-zero on the current
    environment. *)
Definition ready_v1_0 {W : Type} (m : Debounce.machine W) : Prop :=
  match Debounce.time_ref (Debounce.cell m) with
  | None => False
  | Some f => fst (f (Debounce.env m)) <> 0
  end.

(** What one debounce update does to [stable_output], read from the
    machine [m] before the call with sample [x] and the result [out] of
    the call, [ready] telling whether a repeated sample is accepted: the
    returned value is the stored [stable_output]; it moves only to the
    sample, and only when the sample repeats [prev_input] and is accepted;
    a repeated, accepted sample is the output. *)
Definition confirms {W : Type} (ready : Prop) (m : Debounce.machine W)
           (x : Z) (out : Z * Debounce.machine W) : Prop :=
  let s := Debounce.stable_output (Debounce.cell m) in
  let s' := Debounce.stable_output (Debounce.cell (snd out)) in
  fst out = s' /\
  (s' <> s -> neq0 x = Debounce.prev_input (Debounce.cell m) /\ ready) /\
  (neq0 x = Debounce.prev_input (Debounce.cell m) -> ready -> s' = neq0 x) /\
  (s' = s \/ s' = neq0 x).

(** A run over [xs] took the debounce machine from [m] to [m']: the
    [time_ref] is the same; when it is assigned, the call log of [m'] is
    the one of [m] followed by one entry per sample; when it is null, call
    log and environment are those of [m]. *)
Definition queried_per_call {W : Type} (xs : list Z)
           (m m' : Debounce.machine W) : Prop :=
  Debounce.time_ref (Debounce.cell m') = Debounce.time_ref (Debounce.cell m) /\
  match Debounce.time_ref (Debounce.cell m) with
  | Some _ =>
      exists rs,
        Debounce.calls m' = Debounce.calls m ++ rs /\ length rs = length xs
  | None =>
      Debounce.calls m' = Debounce.calls m /\ Debounce.env m' = Debounce.env m
  end.

(** Number of classifications [t] in [l]. *)
Definition count_edge (t : Edge.EdgeType) (l : list Edge.EdgeType) : nat :=
  length (filter (Edge.EdgeType_eqb t) l).

(** The classifications of [l] that are edges. *)
Definition detected (l : list Edge.EdgeType) : list Edge.EdgeType :=
  filter (fun t => negb (Edge.EdgeType_eqb t Edge.EDGE_NONE)) l.

(** The fields of an advanced instance hold values of their C types. *)
Definition edge_ranges {W : Type} (d : Edge.EdgeDetector W) : Prop :=
  is_u8 (Edge.prev d) /\ is_u32 (Edge.rise_count d) /\
  is_u32 (Edge.fall_count d).

(** The three stepping queries of the first version. *)
Inductive basic_query : Type :=
| AskRise
| AskFall
| AskBoth.

(** One call of a query of the first version on a live instance. *)
Definition ask (q : basic_query) (input : Z)
  : state EdgeBasic.EdgeDetector Z :=
  match q with
  | AskRise => EdgeBasic.edge_rise REF input
  | AskFall => EdgeBasic.edge_fall REF input
  | AskBoth => EdgeBasic.edge_both REF input
  end.

(** * Properties *)

(** ** Sequencing *)

(** A statement sequence runs its first part, then the rest on the value
    and machine the first part left. *)
Lemma run_bind {S A B : Type} (c : state S A) (k : A -> state S B) (s : S) :
  run (bind c k) s = run (k (fst (run c s))) (snd (run c s)).
Proof.
  unfold run. cbn. destruct (runState c s) as [a s']. reflexivity.
Qed.

(** ** Debounce filter: one call in closed form *)

Section DebounceStep.
Context {W : Type}.
Import Debounce.

(** Version 1.1, one call on a live instance. *)
Lemma V1_1_update_run (m : machine W) (x : Z) :
  run (V1_1.debounce_update REF x) m =
    let c := neq0 x in
    let d := cell m in
    match time_ref d with
    | None =>
        if c =? prev_input d
        then (c, mkMachine (mkDebounce (prev_input d) c None) (env m) (calls m))
        else (stable_output d,
              mkMachine (mkDebounce c (stable_output d) None) (env m) (calls m))
    | Some f =>
        let r := fst (f (env m)) in
        let e := snd (f (env m)) in
        if c =? prev_input d
        then
          let s := if r =? 0 then stable_output d else c in
          (s, mkMachine (mkDebounce (prev_input d) s (Some f)) e (calls m ++ [r]))
        else (stable_output d,
              mkMachine (mkDebounce c (stable_output d) (Some f)) e
                        (calls m ++ [r]))
    end.
Proof.
  destruct m as [[p s t] e l].
  unfold run, V1_1.debounce_update, V1_1._debounce_time_ready, call_time_ref.
  cbn.
  destruct (neq0 x =? p); cbn;
    destruct t as [f|]; cbn; try reflexivity;
    destruct (f e) as [r e']; cbn; try reflexivity.
  unfold truthy. destruct (r =? 0); reflexivity.
Qed.

(** Version 1.0, one call on a live instance. *)
Lemma V1_0_update_run (m : machine W) (x : Z) :
  run (V1_0.debounce_update REF x) m =
    let c := neq0 x in
    let d := cell m in
    match time_ref d with
    | None =>
        if c =? prev_input d
        then (stable_output d, m)
        else (stable_output d,
              mkMachine (mkDebounce c (stable_output d) None) (env m) (calls m))
    | Some f =>
        let r := fst (f (env m)) in
        let e := snd (f (env m)) in
        if c =? prev_input d
        then
          let s := if r =? 0 then stable_output d else c in
          (s, mkMachine (mkDebounce (prev_input d) s (Some f)) e (calls m ++ [r]))
        else (stable_output d,
              mkMachine (mkDebounce c (stable_output d) (Some f)) e
                        (calls m ++ [r]))
    end.
Proof.
  destruct m as [[p s t] e l].
  unfold run, V1_0.debounce_update, call_time_ref.
  cbn.
  destruct (neq0 x =? p); cbn;
    destruct t as [f|]; cbn; try reflexivity;
    destruct (f e) as [r e']; cbn; try reflexivity.
  unfold truthy. destruct (r =? 0); reflexivity.
Qed.

(** [feed] runs the first call, then the rest from the machine it left. *)
Lemma feed_cons {S A : Type} (step : Z -> state S A) (x : Z) (xs : list Z)
      (s : S) :
  run (feed step (x :: xs)) s =
    (fst (run (step x) s) :: fst (run (feed step xs) (snd (run (step x) s))),
     snd (run (feed step xs) (snd (run (step x) s)))).
Proof.
  unfold run. cbn.
  destruct (runState (step x) s) as [r s']. cbn.
  destruct (runState (feed step xs) s') as [rs s'']. reflexivity.
Qed.

End DebounceStep.

(** ** Debounce filter: the raw-changed path *)

Section DebounceRawChange.
Context {W : Type}.
Import Debounce.

(** C1. On a live instance, a sample whose normalized value differs from
    [prev_input] (the spec's [last_raw]) is stored into [prev_input]; the
    call returns the [stable_output] it found and leaves it as it was; a
    non-null [time_ref] is called exactly once (one entry is appended to
    the call log and the environment is the one that call left), a null one
    not at all; the value returned by [time_ref] reaches neither the return
    value nor the instance.  Both versions behave so. *)
Theorem debounce_update_raw_changed (m : machine W) (x : Z) :
  neq0 x <> prev_input (cell m) ->
  raw_change_effect m x (run (V1_1.debounce_update REF x) m) /\
  raw_change_effect m x (run (V1_0.debounce_update REF x) m).
Proof.
  intros Hneq. apply Z.eqb_neq in Hneq.
  rewrite V1_1_update_run, V1_0_update_run. cbv zeta. rewrite Hneq.
  unfold raw_change_effect.
  destruct (time_ref (cell m)) as [f|]; cbn; repeat split; reflexivity.
Qed.

End DebounceRawChange.

(** C1 at work: from [prev_input = 0], [stable_output = 0] and a timing
    function that answers 1 and counts its calls, the sample 7 is stored
    as 1, 0 is returned, and the function ran once. *)
Lemma debounce_update_raw_changed_witness :
  let m := debounce_start (Debounce.mkDebounce 0 0 (Some tick_ready)) 0%nat in
  neq0 7 <> Debounce.prev_input (Debounce.cell m) /\
  raw_change_effect m 7 (0, Debounce.mkMachine
                              (Debounce.mkDebounce 1 0 (Some tick_ready))
                              1%nat [1]).
Proof.
  intros m.
  assert (Hneq : neq0 7
                 <> Debounce.prev_input (Debounce.cell m)) by (cbn; lia).
  split; [exact Hneq |].
  exact (proj1 (debounce_update_raw_changed m 7 Hneq)).
Defined.

(** ** Debounce filter: runs over sample sequences *)

Section DebounceRuns.
Context {W : Type}.
Import Debounce.

(** Version 1.1 initialization of a live instance. *)
Lemma V1_1_init_run (m0 : machine W) (t : option (W -> Z * W)) (i : Z) :
  run (V1_1.debounce_init REF t i) m0 =
    (tt, mkMachine (mkDebounce (neq0 i) (neq0 i) t) (env m0) (calls m0)).
Proof. reflexivity. Qed.

(** Version 1.0 initialization of a live instance. *)
Lemma V1_0_init_run (m0 : machine W) (t : option (W -> Z * W)) :
  run (V1_0.debounce_init REF t) m0 =
    (tt, mkMachine (mkDebounce 0 0 t) (env m0) (calls m0)).
Proof. reflexivity. Qed.

(** A stepping operation that, under an invariant it keeps, returns and
    leaves the [stable_output] it found, is frozen over every run. *)
Lemma feed_frozen (step : Z -> state (machine W) Z)
      (Inv : machine W -> Prop) :
  (forall m x, Inv m ->
     Inv (snd (run (step x) m)) /\
     fst (run (step x) m) = stable_output (cell m) /\
     stable_output (cell (snd (run (step x) m))) = stable_output (cell m)) ->
  forall xs m, Inv m ->
    frozen_at (stable_output (cell m)) xs (run (feed step xs) m).
Proof.
  intros Hstep xs. induction xs as [|x xs IH]; intros m Hm.
  - repeat split. constructor.
  - destruct (Hstep m x Hm) as (Hinv & Hr & Hs).
    destruct (IH _ Hinv) as (Hlen & Hall & Hfin).
    rewrite Hs in Hall, Hfin.
    rewrite feed_cons. unfold frozen_at. cbn [fst snd length].
    repeat split.
    + now rewrite Hlen.
    + constructor; assumption.
    + assumption.
Qed.

(** A stepping operation that, under an invariant it keeps, stores the
    normalized sample, returns the sample when it repeats [prev_input] and
    the [stable_output] it found otherwise, and leaves what it returns in
    [stable_output], shows one call of latency over every run. *)
Lemma feed_latency (step : Z -> state (machine W) Z)
      (Inv : machine W -> Prop) :
  (forall m x, Inv m ->
     Inv (snd (run (step x) m)) /\
     fst (run (step x) m) =
       (if neq0 x =? prev_input (cell m) then neq0 x
        else stable_output (cell m)) /\
     prev_input (cell (snd (run (step x) m))) = neq0 x /\
     stable_output (cell (snd (run (step x) m))) = fst (run (step x) m)) ->
  forall xs m, Inv m ->
    one_call_latency (prev_input (cell m) :: map neq0 xs)
                     (stable_output (cell m) :: fst (run (feed step xs) m)).
Proof.
  intros Hstep xs. induction xs as [|x xs IH]; intros m Hm.
  - split; [reflexivity |]. intros k Hk. cbn in Hk. lia.
  - destruct (Hstep m x Hm) as (Hinv & Hr & Hp & Hs).
    destruct (IH _ Hinv) as (Hlen & Hnth).
    rewrite Hp, Hs in Hlen, Hnth.
    rewrite feed_cons. cbn [fst snd map].
    split.
    + cbn [length] in *. now rewrite Hlen.
    + intros [|k] Hk.
      * cbn [nth]. exact Hr.
      * change (nth (S (S k)) (stable_output (cell m) ::
                  fst (run (step x) m) ::
                  fst (run (feed step xs) (snd (run (step x) m)))) 0)
          with (nth (S k) (fst (run (step x) m) ::
                  fst (run (feed step xs) (snd (run (step x) m)))) 0).
        cbn [nth length] in *. apply Hnth. lia.
Qed.

(** Version 1.1 with a null or always-true [time_ref]: one call. *)
Lemma V1_1_ready_step (m : machine W) (x : Z) :
  always_ready (time_ref (cell m)) ->
  always_ready (time_ref (cell (snd (run (V1_1.debounce_update REF x) m)))) /\
  fst (run (V1_1.debounce_update REF x) m) =
    (if neq0 x =? prev_input (cell m) then neq0 x
     else stable_output (cell m)) /\
  prev_input (cell (snd (run (V1_1.debounce_update REF x) m))) = neq0 x /\
  stable_output (cell (snd (run (V1_1.debounce_update REF x) m))) =
    fst (run (V1_1.debounce_update REF x) m).
Proof.
  intros Hready. rewrite V1_1_update_run. cbv zeta.
  destruct (time_ref (cell m)) as [f|] eqn:Ht.
  - pose proof (Hready (env m)) as Hf. apply Z.eqb_neq in Hf.
    destruct (Z.eqb_spec (neq0 x) (prev_input (cell m))) as [E|E];
      cbn; rewrite ?Hf; repeat split; auto.
  - destruct (Z.eqb_spec (neq0 x) (prev_input (cell m))) as [E|E];
      cbn; repeat split; auto.
Qed.

(** Version 1.0 with an always-true [time_ref]: one call. *)
Lemma V1_0_ready_step (f : W -> Z * W) (m : machine W) (x : Z) :
  always_true f ->
  time_ref (cell m) = Some f ->
  time_ref (cell (snd (run (V1_0.debounce_update REF x) m))) = Some f /\
  fst (run (V1_0.debounce_update REF x) m) =
    (if neq0 x =? prev_input (cell m) then neq0 x
     else stable_output (cell m)) /\
  prev_input (cell (snd (run (V1_0.debounce_update REF x) m))) = neq0 x /\
  stable_output (cell (snd (run (V1_0.debounce_update REF x) m))) =
    fst (run (V1_0.debounce_update REF x) m).
Proof.
  intros Hready Ht. rewrite V1_0_update_run. cbv zeta. rewrite Ht.
  pose proof (Hready (env m)) as Hf. apply Z.eqb_neq in Hf.
  destruct (Z.eqb_spec (neq0 x) (prev_input (cell m))) as [E|E];
    cbn; rewrite ?Hf; repeat split; auto.
Qed.

(** Either version with an always-false [time_ref]: one call. *)
Lemma busy_step (f : W -> Z * W) (m : machine W) (x : Z) :
  always_false f ->
  time_ref (cell m) = Some f ->
  forall o,
    o = run (V1_1.debounce_update REF x) m \/
    o = run (V1_0.debounce_update REF x) m ->
    time_ref (cell (snd o)) = Some f /\
    fst o = stable_output (cell m) /\
    stable_output (cell (snd o)) = stable_output (cell m).
Proof.
  intros Hbusy Ht o Ho.
  pose proof (Hbusy (env m)) as Hf. apply Z.eqb_eq in Hf.
  destruct Ho as [-> | ->];
    [rewrite V1_1_update_run | rewrite V1_0_update_run];
    cbv zeta; rewrite Ht;
    destruct (neq0 x =? prev_input (cell m));
    cbn; rewrite ?Hf; repeat split; auto.
Qed.

(** Version 1.0 with a null [time_ref]: one call. *)
Lemma V1_0_null_step (m : machine W) (x : Z) :
  time_ref (cell m) = None ->
  time_ref (cell (snd (run (V1_0.debounce_update REF x) m))) = None /\
  fst (run (V1_0.debounce_update REF x) m) = stable_output (cell m) /\
  stable_output (cell (snd (run (V1_0.debounce_update REF x) m))) =
    stable_output (cell m).
Proof.
  intros Ht. rewrite V1_0_update_run. cbv zeta. rewrite Ht.
  destruct (neq0 x =? prev_input (cell m)); cbn; repeat split; auto.
Qed.

End DebounceRuns.

(** ** Debounce filter: the three timing regimes *)

(** C2. With no timing function, version 1.1 initialized on raw 0 answers
    0, 1, 1, 0 to the samples 1, 1, 0, 0.  In general, when [time_ref] is
    null or always true, the outputs of version 1.1 follow the normalized
    samples with one call of latency, from the initial sample on; version
    1.0, which starts from 0, does the same under an always-true
    [time_ref]. *)
Theorem debounce_ready_one_call_latency :
  (forall (W : Type) (m0 : Debounce.machine W),
     fst (run (Debounce.V1_1.debounce_init REF None 0 ;;
               feed (Debounce.V1_1.debounce_update REF) [1; 1; 0; 0]) m0)
       = [0; 1; 1; 0]) /\
  (forall (W : Type) (t : option (W -> Z * W)) (i : Z) (xs : list Z)
          (m0 : Debounce.machine W),
     always_ready t ->
     one_call_latency
       (map neq0 (i :: xs))
       (neq0 i ::
        fst (run (feed (Debounce.V1_1.debounce_update REF) xs)
                 (snd (run (Debounce.V1_1.debounce_init REF t i) m0))))) /\
  (forall (W : Type) (f : W -> Z * W) (xs : list Z)
          (m0 : Debounce.machine W),
     always_true f ->
     one_call_latency
       (0 :: map neq0 xs)
       (0 ::
        fst (run (feed (Debounce.V1_0.debounce_update REF) xs)
                 (snd (run (Debounce.V1_0.debounce_init REF (Some f)) m0))))).
Proof.
  split; [| split].
  - intros W m0. reflexivity.
  - intros W t i xs m0 Hready. rewrite V1_1_init_run. cbn [snd map].
    apply (feed_latency (Debounce.V1_1.debounce_update REF)
             (fun m => always_ready (Debounce.time_ref (Debounce.cell m)))
             V1_1_ready_step xs
             (Debounce.mkMachine (Debounce.mkDebounce (neq0 i) (neq0 i) t)
                                 (Debounce.env m0) (Debounce.calls m0))).
    exact Hready.
  - intros W f xs m0 Hready. rewrite V1_0_init_run. cbn [snd].
    apply (feed_latency (Debounce.V1_0.debounce_update REF)
             (fun m => Debounce.time_ref (Debounce.cell m) = Some f)
             (fun m x => V1_0_ready_step f m x Hready) xs
             (Debounce.mkMachine (Debounce.mkDebounce 0 0 (Some f))
                                 (Debounce.env m0) (Debounce.calls m0))).
    reflexivity.
Qed.

(** C2 at work: with the counting always-true timing function, version 1.1
    initialized on raw 0 shows one call of latency on 1, 1, 0, 0. *)
Lemma debounce_ready_one_call_latency_witness :
  always_ready (Some tick_ready) /\
  one_call_latency [0; 1; 1; 0; 0] [0; 0; 1; 1; 0].
Proof.
  assert (Hready : always_ready (Some tick_ready))
    by (intros n; cbn; lia).
  split; [exact Hready |].
  exact (proj1 (proj2 debounce_ready_one_call_latency)
           nat (Some tick_ready) 0 [1; 1; 0; 0] idle_low Hready).
Defined.

(** C6. When [time_ref] is a function that always returns false, every
    call of a run over any samples returns the [stable_output] the run
    started with and leaves it in place, in both versions; started from
    initialization, that value is the normalized initial sample in version
    1.1 and 0 in version 1.0. *)
Theorem debounce_never_ready_frozen :
  forall (W : Type) (f : W -> Z * W) (xs : list Z),
    always_false f ->
    (forall m : Debounce.machine W,
       Debounce.time_ref (Debounce.cell m) = Some f ->
       frozen_at (Debounce.stable_output (Debounce.cell m)) xs
                 (run (feed (Debounce.V1_1.debounce_update REF) xs) m) /\
       frozen_at (Debounce.stable_output (Debounce.cell m)) xs
                 (run (feed (Debounce.V1_0.debounce_update REF) xs) m)) /\
    (forall (m0 : Debounce.machine W) (i : Z),
       frozen_at (neq0 i) xs
         (run (feed (Debounce.V1_1.debounce_update REF) xs)
              (snd (run (Debounce.V1_1.debounce_init REF (Some f) i) m0))) /\
       frozen_at 0 xs
         (run (feed (Debounce.V1_0.debounce_update REF) xs)
              (snd (run (Debounce.V1_0.debounce_init REF (Some f)) m0)))).
Proof.
  intros W f xs Hbusy.
  assert (H11 : forall m : Debounce.machine W,
             Debounce.time_ref (Debounce.cell m) = Some f ->
             frozen_at (Debounce.stable_output (Debounce.cell m)) xs
               (run (feed (Debounce.V1_1.debounce_update REF) xs) m)).
  { apply (feed_frozen (Debounce.V1_1.debounce_update REF)
             (fun m => Debounce.time_ref (Debounce.cell m) = Some f)).
    intros m x Ht. apply (busy_step f m x Hbusy Ht). left. reflexivity. }
  assert (H10 : forall m : Debounce.machine W,
             Debounce.time_ref (Debounce.cell m) = Some f ->
             frozen_at (Debounce.stable_output (Debounce.cell m)) xs
               (run (feed (Debounce.V1_0.debounce_update REF) xs) m)).
  { apply (feed_frozen (Debounce.V1_0.debounce_update REF)
             (fun m => Debounce.time_ref (Debounce.cell m) = Some f)).
    intros m x Ht. apply (busy_step f m x Hbusy Ht). right. reflexivity. }
  split.
  - intros m Ht. split; [apply H11 | apply H10]; exact Ht.
  - intros m0 i. split.
    + rewrite V1_1_init_run. apply H11. reflexivity.
    + rewrite V1_0_init_run. apply H10. reflexivity.
Qed.

(** C6 at work: with the counting always-false timing function, version
    1.1 initialized on raw 1 answers 1 to each of 0, 0, 0, 1, 0. *)
Lemma debounce_never_ready_frozen_witness :
  always_false tick_busy /\
  frozen_at 1 [0; 0; 0; 1; 0]
    (run (feed (Debounce.V1_1.debounce_update REF) [0; 0; 0; 1; 0])
         (snd (run (Debounce.V1_1.debounce_init REF (Some tick_busy) 9)
                   idle_low))).
Proof.
  assert (Hbusy : always_false tick_busy) by (intros n; reflexivity).
  split; [exact Hbusy |].
  exact (proj1 (proj2 (debounce_never_ready_frozen nat tick_busy
                         [0; 0; 0; 1; 0] Hbusy) idle_low 9)).
Defined.

(** C10. In version 1.0 a null [time_ref] is never ready: every call of a
    run over any samples returns the [stable_output] the run started with
    and leaves it in place; after initialization, which sets it to 0,
    every call returns 0. *)
Theorem debounce_v1_0_null_time_ref_frozen :
  forall (W : Type) (xs : list Z),
    (forall m : Debounce.machine W,
       Debounce.time_ref (Debounce.cell m) = None ->
       frozen_at (Debounce.stable_output (Debounce.cell m)) xs
                 (run (feed (Debounce.V1_0.debounce_update REF) xs) m)) /\
    (forall m0 : Debounce.machine W,
       frozen_at 0 xs
         (run (feed (Debounce.V1_0.debounce_update REF) xs)
              (snd (run (Debounce.V1_0.debounce_init REF None) m0)))).
Proof.
  intros W xs.
  assert (H : forall m : Debounce.machine W,
            Debounce.time_ref (Debounce.cell m) = None ->
            frozen_at (Debounce.stable_output (Debounce.cell m)) xs
              (run (feed (Debounce.V1_0.debounce_update REF) xs) m)).
  { apply (feed_frozen (Debounce.V1_0.debounce_update REF)
             (fun m => Debounce.time_ref (Debounce.cell m) = None)).
    intros m x Ht. exact (V1_0_null_step m x Ht). }
  split; [exact H |].
  intros m0. rewrite V1_0_init_run. apply H. reflexivity.
Qed.

(** C10 at work: version 1.0 with a null [time_ref], [stable_output] at 0,
    answers 0 to each of 1, 1, 1. *)
Lemma debounce_v1_0_null_time_ref_frozen_witness :
  Debounce.time_ref
    (Debounce.cell (debounce_start (Debounce.mkDebounce 0 0 None) tt)) = None /\
  frozen_at 0 [1; 1; 1]
    (run (feed (Debounce.V1_0.debounce_update REF) [1; 1; 1])
         (debounce_start (Debounce.mkDebounce 0 0 None) tt)).
Proof.
  split; [reflexivity |].
  exact (proj1 (debounce_v1_0_null_time_ref_frozen unit [1; 1; 1])
           (debounce_start (Debounce.mkDebounce 0 0 None) tt) eq_refl).
Defined.

(** ** Edge detector: one call in closed form *)

Section EdgeStep.
Context {W : Type}.
Import Edge.

(** Normalization yields 0 or 1. *)
Lemma norm01_01 (x : Z) : norm01 x = 0 \/ norm01 x = 1.
Proof. unfold norm01. destruct (x =? 0); [left | right]; reflexivity. Qed.

(** Every non-zero sample normalizes as 1 does. *)
Lemma norm01_nonzero (x : Z) : x <> 0 -> norm01 x = norm01 1.
Proof.
  intros Hx. apply Z.eqb_neq in Hx. unfold norm01. now rewrite Hx.
Qed.

(** Every non-zero sample compares to 0 as 1 does. *)
Lemma neq0_nonzero (x : Z) : x <> 0 -> neq0 x = neq0 1.
Proof.
  intros Hx. apply Z.eqb_neq in Hx. unfold neq0. now rewrite Hx.
Qed.

(** A 32-bit increment never returns its argument. *)
Lemma incr_u32_neq (n : Z) : incr_u32 n <> n.
Proof.
  unfold incr_u32. change (2 ^ 32) with 4294967296.
  intros H.
  pose proof (Z.mod_pos_bound (n + 1) 4294967296 ltac:(lia)) as Hb.
  pose proof (Z.div_mod (n + 1) 4294967296 ltac:(lia)) as Hd.
  lia.
Qed.

(** [edge_update], one call on a live instance. *)
Lemma edge_update_run (m : machine W) (x : Z) :
  run (edge_update REF x) m =
    let c := norm01 x in
    let d := cell m in
    match edge_between (prev d) c with
    | EDGE_RISING =>
        (EDGE_RISING,
         notified m c (incr_u32 (rise_count d)) (fall_count d) EDGE_RISING)
    | EDGE_FALLING =>
        (EDGE_FALLING,
         notified m c (rise_count d) (incr_u32 (fall_count d)) EDGE_FALLING)
    | _ =>
        (EDGE_NONE,
         mkMachine (mkEdgeDetector c (rise_count d) (fall_count d) (on_edge d))
                   (env m) (calls m))
    end.
Proof.
  destruct m as [[p rc fc cb] e l].
  unfold run, edge_update, _edge_invoke_callback, edge_between, notified.
  cbn.
  destruct ((p =? 0) && (norm01 x =? 1)); cbn;
    [destruct cb; reflexivity |].
  destruct ((p =? 1) && (norm01 x =? 0)); cbn;
    [destruct cb; reflexivity | reflexivity].
Qed.

(** [edge_update] returns the classification of the sample against
    [prev]. *)
Lemma edge_update_result (m : machine W) (x : Z) :
  fst (run (edge_update REF x) m) = edge_between (prev (cell m)) (norm01 x).
Proof.
  rewrite edge_update_run. cbv zeta.
  destruct (edge_between (prev (cell m)) (norm01 x)) eqn:E;
    try reflexivity.
  unfold edge_between in E.
  destruct ((prev (cell m) =? 0) && (norm01 x =? 1));
    [discriminate |].
  destruct ((prev (cell m) =? 1) && (norm01 x =? 0)); discriminate.
Qed.

(** [edge_update] leaves the normalized sample in [prev]. *)
Lemma edge_update_prev (m : machine W) (x : Z) :
  prev (cell (snd (run (edge_update REF x) m))) = norm01 x.
Proof.
  rewrite edge_update_run. cbv zeta. unfold notified.
  destruct (edge_between (prev (cell m)) (norm01 x));
    destruct (on_edge (cell m)); reflexivity.
Qed.

End EdgeStep.

(** ** Edge detector: classification, counters, reset *)

(** C3. After [edge_init] with 0, the samples 0, 0, 1, 1, 0, 1 classify as
    None, None, Rising, None, Falling, Rising, and the counters end at two
    rising and one falling edge, as the accessors report. *)
Theorem edge_sequence_classification :
  forall (W : Type) (m0 : Edge.machine W),
    let out :=
      run (Edge.edge_init REF 0 ;;
           feed (Edge.edge_update REF) [0; 0; 1; 1; 0; 1]) m0 in
    fst out = [Edge.EDGE_NONE; Edge.EDGE_NONE; Edge.EDGE_RISING;
               Edge.EDGE_NONE; Edge.EDGE_FALLING; Edge.EDGE_RISING] /\
    Edge.rise_count (Edge.cell (snd out)) = 2 /\
    Edge.fall_count (Edge.cell (snd out)) = 1 /\
    fst (run (Edge.edge_get_rise_count REF) (snd out)) = 2 /\
    fst (run (Edge.edge_get_fall_count REF) (snd out)) = 1.
Proof.
  intros W m0. repeat split.
Qed.

Section EdgeAny.
Context {W : Type}.
Import Edge.

(** [edge_both] is one [edge_update] followed by a test of its result. *)
Lemma edge_both_is_one_step (m : machine W) (x : Z) :
  snd (run (edge_both REF x) m) = snd (run (edge_update REF x) m) /\
  fst (run (edge_both REF x) m) =
    of_bool (negb (EdgeType_eqb (fst (run (edge_update REF x) m)) EDGE_NONE)).
Proof.
  unfold edge_both. rewrite run_bind. split; reflexivity.
Qed.

(** C4. [edge_both] (the spec's Any) returns 1 exactly when [edge_update]
    (Classify) on the same machine and sample returns a classification
    other than None, and 0 otherwise; the machine it leaves ([prev], both
    counters, the callback, the environment and the log of callback calls)
    is the one a single [edge_update] leaves.  The first version's
    [edge_both], which computes the change itself, agrees on the returned
    value and on [prev] whenever [prev] is 0 or 1. *)
Theorem edge_both_is_one_classify_step (m : machine W) (x : Z) :
  snd (run (edge_both REF x) m) = snd (run (edge_update REF x) m) /\
  (fst (run (edge_both REF x) m) = 1 <->
   fst (run (edge_update REF x) m) <> EDGE_NONE) /\
  (fst (run (edge_both REF x) m) = 0 <->
   fst (run (edge_update REF x) m) = EDGE_NONE) /\
  (prev (cell m) = 0 \/ prev (cell m) = 1 ->
   fst (run (EdgeBasic.edge_both REF x) (basic_of (cell m))) =
     fst (run (edge_both REF x) m) /\
   EdgeBasic.prev (snd (run (EdgeBasic.edge_both REF x) (basic_of (cell m)))) =
     prev (cell (snd (run (edge_both REF x) m)))).
Proof.
  destruct (edge_both_is_one_step m x) as [-> ->].
  split; [reflexivity |].
  split; [| split].
  - destruct (fst (run (edge_update REF x) m)); cbn;
      split; intros H; try discriminate; try reflexivity;
      exfalso; apply H; reflexivity.
  - destruct (fst (run (edge_update REF x) m)); cbn;
      split; intros H; try discriminate; reflexivity.
  - intros Hprev. rewrite edge_update_result, edge_update_prev.
    unfold run, EdgeBasic.edge_both, basic_of. cbn.
    change (EdgeBasic.norm01 x) with (norm01 x).
    split; [| reflexivity].
    destruct Hprev as [-> | ->]; destruct (norm01_01 x) as [-> | ->];
      reflexivity.
Qed.

End EdgeAny.

(** C4 at work: on the machine resting on 0 with five rising edges seen,
    the sample 1 makes [edge_both] answer 1 and count the sixth rising
    edge, once. *)
Lemma edge_both_is_one_classify_step_witness :
  (Edge.prev (Edge.cell seen_edges) = 0 \/
   Edge.prev (Edge.cell seen_edges) = 1) /\
  fst (run (EdgeBasic.edge_both REF 1) (basic_of (Edge.cell seen_edges))) =
    fst (run (Edge.edge_both REF 1) seen_edges) /\
  snd (run (Edge.edge_both REF 1) seen_edges) =
    Edge.mkMachine (Edge.mkEdgeDetector 1 6 3 (Some count_edges)) 9%nat
                   [Edge.EDGE_RISING].
Proof.
  assert (Hprev : Edge.prev (Edge.cell seen_edges) = 0 \/
                  Edge.prev (Edge.cell seen_edges) = 1)
    by (left; reflexivity).
  split; [exact Hprev |].
  destruct (edge_both_is_one_classify_step seen_edges 1)
    as (Hsnd & _ & _ & Hbasic).
  split; [exact (proj1 (Hbasic Hprev)) |].
  rewrite Hsnd. reflexivity.
Defined.

Section EdgeCounters.
Context {W : Type}.
Import Edge.

(** The counters after one [edge_update], by classification. *)
Lemma edge_update_counters (m : machine W) (x : Z) :
  let t := fst (run (edge_update REF x) m) in
  let d' := cell (snd (run (edge_update REF x) m)) in
  rise_count d' =
    (if EdgeType_eqb t EDGE_RISING then incr_u32 (rise_count (cell m))
     else rise_count (cell m)) /\
  fall_count d' =
    (if EdgeType_eqb t EDGE_FALLING then incr_u32 (fall_count (cell m))
     else fall_count (cell m)).
Proof.
  cbv zeta. rewrite edge_update_run. cbv zeta. unfold notified.
  destruct (edge_between (prev (cell m)) (norm01 x));
    destruct (on_edge (cell m)); split; reflexivity.
Qed.

(** [edge_init] and [edge_reset] leave both counters at 0. *)
Lemma clearing_zeroes (m : machine W) (o : operation) :
  clears_counters o = true ->
  rise_count (cell (snd (run (perform o) m))) = 0 /\
  fall_count (cell (snd (run (perform o) m))) = 0.
Proof.
  destruct o; cbn [clears_counters]; intros H; try discriminate;
    split; reflexivity.
Qed.

(** C5, as amended.  One [edge_update] sets [rise_count] to its 32-bit
    successor exactly when the call classifies as Rising and leaves it
    untouched otherwise; the same holds of [fall_count] and Falling; the
    successor is the counter plus 1 as long as that fits 32 bits.  No
    entry point other than [edge_reset] and [edge_init] lowers a counter
    (the wrap of the increment from 2^32 - 1 to 0 aside); those two set
    both counters to 0. *)
Theorem edge_counters_follow_classification (m : machine W) :
  (forall x : Z,
     let t := fst (run (edge_update REF x) m) in
     let d' := cell (snd (run (edge_update REF x) m)) in
     (rise_count d' = incr_u32 (rise_count (cell m)) <-> t = EDGE_RISING) /\
     (t <> EDGE_RISING -> rise_count d' = rise_count (cell m)) /\
     (fall_count d' = incr_u32 (fall_count (cell m)) <-> t = EDGE_FALLING) /\
     (t <> EDGE_FALLING -> fall_count d' = fall_count (cell m)) /\
     (t = EDGE_RISING -> is_u32 (rise_count (cell m) + 1) ->
      rise_count d' = rise_count (cell m) + 1) /\
     (t = EDGE_FALLING -> is_u32 (fall_count (cell m) + 1) ->
      fall_count d' = fall_count (cell m) + 1)) /\
  (forall o : operation,
     clears_counters o = false ->
     not_decreased (rise_count (cell m))
                   (rise_count (cell (snd (run (perform o) m)))) /\
     not_decreased (fall_count (cell m))
                   (fall_count (cell (snd (run (perform o) m))))) /\
  (forall o : operation,
     clears_counters o = true ->
     rise_count (cell (snd (run (perform o) m))) = 0 /\
     fall_count (cell (snd (run (perform o) m))) = 0).
Proof.
  assert (Hstep : forall x,
             not_decreased (rise_count (cell m))
               (rise_count (cell (snd (run (edge_update REF x) m)))) /\
             not_decreased (fall_count (cell m))
               (fall_count (cell (snd (run (edge_update REF x) m))))).
  { intros x. destruct (edge_update_counters m x) as [Hr Hf].
    rewrite Hr, Hf. unfold not_decreased.
    destruct (fst (run (edge_update REF x) m)); cbn;
      split; solve [left; lia | right; reflexivity]. }
  split; [| split].
  - intros x. cbv zeta. destruct (edge_update_counters m x) as [Hr Hf].
    rewrite Hr, Hf.
    destruct (fst (run (edge_update REF x) m)); cbn;
      (split; [| split; [| split; [| split; [| split]]]]);
      try (split; intros H);
      try (intros H);
      try reflexivity; try discriminate; try congruence;
      try solve [exfalso; apply (incr_u32_neq _ (eq_sym H))
                | exfalso; apply H; reflexivity];
      intros Hu; apply Z.mod_small; exact Hu.
  - intros o Ho. destruct o; cbn [clears_counters] in Ho; try discriminate.
    + cbn [perform]. rewrite run_bind. apply Hstep.
    + cbn [perform]. rewrite run_bind. cbn [run runState ret Monad_state snd].
      destruct (edge_both_is_one_step m input) as [-> _]. apply Hstep.
    + split; left; cbn; lia.
    + split; left; cbn; lia.
  - intros o Ho. exact (clearing_zeroes m o Ho).
Qed.

End EdgeCounters.

(** C5 as stated fails on [edge_init]: called on a live instance that has
    counted five rising and three falling edges, it is an entry point other
    than [edge_reset], and it takes the counters from 5 and 3 down to 0. *)
Lemma edge_init_lowers_counters :
  Edge.Initialize 0 <> Edge.Reset /\
  Edge.rise_count (Edge.cell seen_edges) = 5 /\
  Edge.fall_count (Edge.cell seen_edges) = 3 /\
  Edge.rise_count
    (Edge.cell (snd (run (Edge.perform (Edge.Initialize 0)) seen_edges))) = 0 /\
  Edge.fall_count
    (Edge.cell (snd (run (Edge.perform (Edge.Initialize 0)) seen_edges))) = 0 /\
  ~ not_decreased
      (Edge.rise_count (Edge.cell seen_edges))
      (Edge.rise_count
         (Edge.cell (snd (run (Edge.perform (Edge.Initialize 0)) seen_edges)))) /\
  ~ not_decreased
      (Edge.fall_count (Edge.cell seen_edges))
      (Edge.fall_count
         (Edge.cell (snd (run (Edge.perform (Edge.Initialize 0)) seen_edges)))).
Proof.
  split; [discriminate |].
  repeat (split; [reflexivity |]).
  split; intros [H | H]; cbn in H; try lia; discriminate H.
Qed.

(** C5 as amended, at work: [edge_both] does not clear the counters, and
    on the machine that has counted five rising edges and rests on 0 the
    sample 1 takes [rise_count] to 6 and leaves [fall_count] at 3. *)
Lemma edge_counters_follow_classification_witness :
  clears_counters (Edge.Any 1) = false /\
  not_decreased 5
    (Edge.rise_count
       (Edge.cell (snd (run (Edge.perform (Edge.Any 1)) seen_edges)))) /\
  not_decreased 3
    (Edge.fall_count
       (Edge.cell (snd (run (Edge.perform (Edge.Any 1)) seen_edges)))).
Proof.
  split; [reflexivity |].
  exact (proj1 (proj2 (edge_counters_follow_classification seen_edges))
           (Edge.Any 1) eq_refl).
Defined.

Section EdgeReset.
Context {W : Type}.
Import Edge.

(** C7. [edge_reset] on a live instance sets both counters to 0 and
    leaves [prev], the callback, the environment and the call log as they
    were; right after it both accessors return 0; and the next
    [edge_update] classifies its sample against the [prev] found before
    the reset, exactly as it would have without the reset. *)
Theorem edge_reset_clears_counters_only (m : machine W) :
  run (edge_reset REF) m =
    (tt, mkMachine (mkEdgeDetector (prev (cell m)) 0 0 (on_edge (cell m)))
                   (env m) (calls m)) /\
  fst (run (edge_reset REF ;; edge_get_rise_count REF) m) = 0 /\
  fst (run (edge_reset REF ;; edge_get_fall_count REF) m) = 0 /\
  forall x : Z,
    fst (run (edge_reset REF ;; edge_update REF x) m) =
      edge_between (prev (cell m)) (norm01 x) /\
    fst (run (edge_reset REF ;; edge_update REF x) m) =
      fst (run (edge_update REF x) m).
Proof.
  assert (Hreset : run (edge_reset REF) m =
                   (tt, mkMachine
                          (mkEdgeDetector (prev (cell m)) 0 0 (on_edge (cell m)))
                          (env m) (calls m))) by reflexivity.
  split; [exact Hreset |].
  split; [reflexivity |]. split; [reflexivity |].
  intros x. rewrite run_bind, Hreset. cbn [fst snd].
  rewrite !edge_update_result. split; reflexivity.
Qed.

End EdgeReset.

(** ** Normalization of samples *)

(** C8. A non-zero [uint8_t] sample acts as the sample 1 does: every
    stepping entry point of either component and either version returns
    the same value and leaves the same machine for both, and so do the
    initializations that take a sample; the sample 0 is recorded as 0 and
    a non-zero one as 1. *)
Theorem nonzero_sample_is_one :
  forall (W : Type) (x : Z),
    is_u8 x -> x <> 0 ->
    (forall m : Debounce.machine W,
       run (Debounce.V1_1.debounce_update REF x) m =
         run (Debounce.V1_1.debounce_update REF 1) m /\
       run (Debounce.V1_0.debounce_update REF x) m =
         run (Debounce.V1_0.debounce_update REF 1) m /\
       (forall t, run (Debounce.V1_1.debounce_init REF t x) m =
                  run (Debounce.V1_1.debounce_init REF t 1) m) /\
       Debounce.prev_input
         (Debounce.cell (snd (run (Debounce.V1_1.debounce_update REF x) m))) = 1 /\
       Debounce.prev_input
         (Debounce.cell (snd (run (Debounce.V1_1.debounce_update REF 0) m))) = 0 /\
       Debounce.prev_input
         (Debounce.cell (snd (run (Debounce.V1_0.debounce_update REF x) m))) = 1 /\
       Debounce.prev_input
         (Debounce.cell (snd (run (Debounce.V1_0.debounce_update REF 0) m))) = 0) /\
    (forall m : Edge.machine W,
       run (Edge.edge_update REF x) m = run (Edge.edge_update REF 1) m /\
       run (Edge.edge_both REF x) m = run (Edge.edge_both REF 1) m /\
       run (Edge.edge_init REF x) m = run (Edge.edge_init REF 1) m /\
       Edge.prev (Edge.cell (snd (run (Edge.edge_update REF x) m))) = 1 /\
       Edge.prev (Edge.cell (snd (run (Edge.edge_update REF 0) m))) = 0) /\
    (forall d : EdgeBasic.EdgeDetector,
       run (EdgeBasic.edge_rise REF x) d = run (EdgeBasic.edge_rise REF 1) d /\
       run (EdgeBasic.edge_fall REF x) d = run (EdgeBasic.edge_fall REF 1) d /\
       run (EdgeBasic.edge_both REF x) d = run (EdgeBasic.edge_both REF 1) d /\
       run (EdgeBasic.edge_init REF x) d = run (EdgeBasic.edge_init REF 1) d).
Proof.
  intros W x _ Hx.
  pose proof (neq0_nonzero x Hx) as Hn.
  pose proof (norm01_nonzero x Hx) as Hm.
  assert (Hb : EdgeBasic.norm01 x = EdgeBasic.norm01 1) by exact Hm.
  split; [| split].
  - intros m.
    assert (H11 : run (Debounce.V1_1.debounce_update REF x) m =
                  run (Debounce.V1_1.debounce_update REF 1) m)
      by (rewrite !V1_1_update_run; cbv zeta; rewrite Hn; reflexivity).
    assert (H10 : run (Debounce.V1_0.debounce_update REF x) m =
                  run (Debounce.V1_0.debounce_update REF 1) m)
      by (rewrite !V1_0_update_run; cbv zeta; rewrite Hn; reflexivity).
    assert (Hp11 : forall y,
               Debounce.prev_input
                 (Debounce.cell
                    (snd (run (Debounce.V1_1.debounce_update REF y) m))) =
               neq0 y).
    { intros y. rewrite V1_1_update_run. cbv zeta.
      destruct (Debounce.time_ref (Debounce.cell m));
        destruct (Z.eqb_spec (neq0 y) (Debounce.prev_input (Debounce.cell m)));
        cbn; auto. }
    assert (Hp10 : forall y,
               Debounce.prev_input
                 (Debounce.cell
                    (snd (run (Debounce.V1_0.debounce_update REF y) m))) =
               neq0 y).
    { intros y. rewrite V1_0_update_run. cbv zeta.
      destruct (Debounce.time_ref (Debounce.cell m));
        destruct (Z.eqb_spec (neq0 y) (Debounce.prev_input (Debounce.cell m)));
        cbn; auto. }
    split; [exact H11 |]. split; [exact H10 |].
    split; [intros t; rewrite !V1_1_init_run, Hn; reflexivity |].
    rewrite !Hp11, !Hp10, Hn. repeat split.
  - intros m.
    assert (Hu : run (Edge.edge_update REF x) m =
                 run (Edge.edge_update REF 1) m)
      by (rewrite !edge_update_run; cbv zeta; rewrite Hm; reflexivity).
    split; [exact Hu |].
    split; [unfold Edge.edge_both; rewrite !run_bind, Hu; reflexivity |].
    split; [unfold run, Edge.edge_init; cbn; rewrite Hm; reflexivity |].
    rewrite !edge_update_prev, Hm. split; reflexivity.
  - intros d.
    unfold run, EdgeBasic.edge_rise, EdgeBasic.edge_fall,
      EdgeBasic.edge_both, EdgeBasic.edge_init.
    cbn. rewrite Hb. repeat split.
Qed.

(** C8 at work: the sample 5 is a non-zero [uint8_t]; version 1.1 of the
    debounce update and [edge_update] treat it as they treat 1. *)
Lemma nonzero_sample_is_one_witness :
  is_u8 5 /\ 5 <> 0 /\
  run (Debounce.V1_1.debounce_update REF 5) idle_low =
    run (Debounce.V1_1.debounce_update REF 1) idle_low /\
  run (Edge.edge_update REF 5) seen_edges =
    run (Edge.edge_update REF 1) seen_edges.
Proof.
  assert (Hu : is_u8 5) by (unfold is_u8; lia).
  assert (Hx : 5 <> 0) by lia.
  split; [exact Hu |]. split; [exact Hx |].
  destruct (nonzero_sample_is_one nat 5 Hu Hx) as (Hd & He & _).
  split; [exact (proj1 (Hd idle_low)) | exact (proj1 (He seen_edges))].
Defined.

(** ** Null instance pointer *)

(** C9. Called with a null instance pointer, every entry point of both
    components and both versions leaves the machine (instance, environment
    and call log) as it found it, calls no user function, and returns its
    neutral value: 0 where it returns an integer, [EDGE_NONE] where it
    returns a classification. *)
Theorem null_instance_is_noop :
  forall (W : Type),
    (forall (m : Debounce.machine W) (t : option (W -> Z * W)) (x : Z),
       run (Debounce.V1_1.debounce_init NULL t x) m = (tt, m) /\
       run (Debounce.V1_1.debounce_update NULL x) m = (0, m) /\
       run (Debounce.V1_0.debounce_init NULL t) m = (tt, m) /\
       run (Debounce.V1_0.debounce_update NULL x) m = (0, m)) /\
    (forall (m : Edge.machine W) (x : Z),
       run (Edge.edge_init NULL x) m = (tt, m) /\
       run (Edge.edge_update NULL x) m = (Edge.EDGE_NONE, m) /\
       run (Edge.edge_both NULL x) m = (0, m) /\
       run (Edge.edge_reset NULL) m = (tt, m) /\
       run (Edge.edge_get_rise_count NULL) m = (0, m) /\
       run (Edge.edge_get_fall_count NULL) m = (0, m)) /\
    (forall (d : EdgeBasic.EdgeDetector) (x : Z),
       run (EdgeBasic.edge_init NULL x) d = (tt, d) /\
       run (EdgeBasic.edge_rise NULL x) d = (0, d) /\
       run (EdgeBasic.edge_fall NULL x) d = (0, d) /\
       run (EdgeBasic.edge_both NULL x) d = (0, d)).
Proof.
  intros W. repeat split.
Qed.

(** * Further properties *)

(** ** Runs under an invariant *)

(** When the stepping operation, on the samples satisfying [Q] and under
    an invariant it keeps, returns values satisfying [P], a run over
    samples satisfying [Q] keeps the invariant, returns one value per
    sample, and every value satisfies [P]. *)
Lemma feed_guarded {S A : Type} (step : Z -> state S A) (Q : Z -> Prop)
      (Inv : S -> Prop) (P : A -> Prop) :
  (forall s x, Q x -> Inv s ->
     Inv (snd (run (step x) s)) /\ P (fst (run (step x) s))) ->
  forall xs s, Forall Q xs -> Inv s ->
    Inv (snd (run (feed step xs) s)) /\
    Forall P (fst (run (feed step xs) s)) /\
    length (fst (run (feed step xs) s)) = length xs.
Proof.
  intros Hstep xs. induction xs as [|x xs IH]; intros s HQ Hs.
  - cbn. repeat split; [exact Hs | constructor].
  - inversion HQ as [|? ? Hx Hxs]; subst.
    destruct (Hstep s x Hx Hs) as [Hinv HP].
    destruct (IH _ Hxs Hinv) as (Hfin & Hall & Hlen).
    rewrite feed_cons. cbn [fst snd length].
    repeat split; [exact Hfin | constructor; assumption | now rewrite Hlen].
Qed.

(** ** Debounce filter: invariants of a call *)

Section DebounceCall.
Context {W : Type}.
Import Debounce.

(** [neq0] yields 0 or 1. *)
Lemma neq0_binary (x : Z) : binary (neq0 x).
Proof.
  unfold binary, neq0. destruct (x =? 0); [left | right]; reflexivity.
Qed.

(** Version 1.1: [prev_input], [time_ref] and the returned value after
    one call. *)
Lemma V1_1_update_frame (m : machine W) (x : Z) :
  prev_input (cell (snd (run (V1_1.debounce_update REF x) m))) = neq0 x /\
  time_ref (cell (snd (run (V1_1.debounce_update REF x) m))) =
    time_ref (cell m) /\
  fst (run (V1_1.debounce_update REF x) m) =
    stable_output (cell (snd (run (V1_1.debounce_update REF x) m))).
Proof.
  rewrite V1_1_update_run. cbv zeta.
  destruct (time_ref (cell m));
    destruct (Z.eqb_spec (neq0 x) (prev_input (cell m)));
    cbn; repeat split; auto.
Qed.

(** Version 1.0: [prev_input], [time_ref] and the returned value after
    one call. *)
Lemma V1_0_update_frame (m : machine W) (x : Z) :
  prev_input (cell (snd (run (V1_0.debounce_update REF x) m))) = neq0 x /\
  time_ref (cell (snd (run (V1_0.debounce_update REF x) m))) =
    time_ref (cell m) /\
  fst (run (V1_0.debounce_update REF x) m) =
    stable_output (cell (snd (run (V1_0.debounce_update REF x) m))).
Proof.
  rewrite V1_0_update_run. cbv zeta.
  destruct (time_ref (cell m)) eqn:Ht;
    destruct (Z.eqb_spec (neq0 x) (prev_input (cell m)));
    cbn; rewrite ?Ht; repeat split; auto.
Qed.

(** Either version returns the [stable_output] it leaves, which is the
    one it found or the normalized sample. *)
Lemma update_output_shape (m : machine W) (x : Z) :
  (fst (run (V1_1.debounce_update REF x) m) =
     stable_output (cell (snd (run (V1_1.debounce_update REF x) m))) /\
   (stable_output (cell (snd (run (V1_1.debounce_update REF x) m))) =
      stable_output (cell m) \/
    stable_output (cell (snd (run (V1_1.debounce_update REF x) m))) =
      neq0 x)) /\
  (fst (run (V1_0.debounce_update REF x) m) =
     stable_output (cell (snd (run (V1_0.debounce_update REF x) m))) /\
   (stable_output (cell (snd (run (V1_0.debounce_update REF x) m))) =
      stable_output (cell m) \/
    stable_output (cell (snd (run (V1_0.debounce_update REF x) m))) =
      neq0 x)).
Proof.
  rewrite V1_1_update_run, V1_0_update_run. cbv zeta.
  destruct (time_ref (cell m)) as [f|];
    destruct (Z.eqb_spec (neq0 x) (prev_input (cell m))) as [E|E];
    cbn [fst snd stable_output cell];
    try destruct (Z.eqb_spec (fst (f (env m))) 0) as [R|R];
    repeat split; auto.
Qed.

(** X1. The output of the debounce filter moves only on confirmation, in
    both versions and whatever the timing function does: a call returns
    the [stable_output] it leaves; that value differs from the one found
    only if the sample repeats [prev_input] and the filter is ready (in
    version 1.1 [time_ref] is null or answered non-zero, in version 1.0
    it is assigned and answered non-zero), and it is then the normalized
    sample; conversely a repeated sample on a ready filter becomes the
    output. *)
Theorem debounce_accepts_only_confirmed (m : machine W) (x : Z) :
  confirms (ready_v1_1 m) m x (run (V1_1.debounce_update REF x) m) /\
  confirms (ready_v1_0 m) m x (run (V1_0.debounce_update REF x) m).
Proof.
  unfold confirms, ready_v1_1, ready_v1_0.
  rewrite V1_1_update_run, V1_0_update_run. cbv zeta.
  destruct (time_ref (cell m)) as [f|];
    destruct (Z.eqb_spec (neq0 x) (prev_input (cell m))) as [E|E];
    cbn [fst snd stable_output cell];
    try destruct (Z.eqb_spec (fst (f (env m))) 0) as [R|R];
    repeat split; intros; auto; try contradiction; try congruence;
    try (exfalso; congruence).
Qed.

End DebounceCall.

(** ** Debounce filter: invariants of a run *)

Section DebounceInvariants.
Context {W : Type}.
Import Debounce.

(** One call of either version keeps [stable_output] binary and returns
    a binary value. *)
Lemma update_keeps_binary (m : machine W) (x : Z) :
  binary (stable_output (cell m)) ->
  (binary (stable_output (cell (snd (run (V1_1.debounce_update REF x) m)))) /\
   binary (fst (run (V1_1.debounce_update REF x) m))) /\
  (binary (stable_output (cell (snd (run (V1_0.debounce_update REF x) m)))) /\
   binary (fst (run (V1_0.debounce_update REF x) m))).
Proof.
  intros Hs.
  destruct (update_output_shape m x) as [H11 H10].
  destruct H11 as (-> & [-> | ->]); destruct H10 as (-> & [-> | ->]);
    repeat split; auto using neq0_binary.
Qed.

(** X2. Started from a binary [stable_output], and so after either
    initialization, every call of a run returns 0 or 1 and leaves
    [stable_output] at 0 or 1, in both versions and whatever the timing
    function does. *)
Theorem debounce_outputs_binary (xs : list Z) :
  (forall m : machine W,
     binary (stable_output (cell m)) ->
     Forall binary (fst (run (feed (V1_1.debounce_update REF) xs) m)) /\
     binary (stable_output
               (cell (snd (run (feed (V1_1.debounce_update REF) xs) m)))) /\
     Forall binary (fst (run (feed (V1_0.debounce_update REF) xs) m)) /\
     binary (stable_output
               (cell (snd (run (feed (V1_0.debounce_update REF) xs) m))))) /\
  (forall (m0 : machine W) (t : option (W -> Z * W)) (i : Z),
     Forall binary
       (fst (run (feed (V1_1.debounce_update REF) xs)
                 (snd (run (V1_1.debounce_init REF t i) m0)))) /\
     Forall binary
       (fst (run (feed (V1_0.debounce_update REF) xs)
                 (snd (run (V1_0.debounce_init REF t) m0))))).
Proof.
  assert (Hall : Forall (fun _ : Z => True) xs)
    by (apply Forall_forall; intros; exact I).
  assert (H11 : forall m : machine W,
             binary (stable_output (cell m)) ->
             binary (stable_output
                       (cell (snd (run (feed (V1_1.debounce_update REF) xs)
                                       m)))) /\
             Forall binary (fst (run (feed (V1_1.debounce_update REF) xs) m))).
  { intros m Hm.
    destruct (feed_guarded (V1_1.debounce_update REF) (fun _ => True)
                (fun s => binary (stable_output (cell s))) binary
                (fun s x _ Hs => proj1 (update_keeps_binary s x Hs))
                xs m Hall Hm) as (Hfin & Hout & _).
    split; assumption. }
  assert (H10 : forall m : machine W,
             binary (stable_output (cell m)) ->
             binary (stable_output
                       (cell (snd (run (feed (V1_0.debounce_update REF) xs)
                                       m)))) /\
             Forall binary (fst (run (feed (V1_0.debounce_update REF) xs) m))).
  { intros m Hm.
    destruct (feed_guarded (V1_0.debounce_update REF) (fun _ => True)
                (fun s => binary (stable_output (cell s))) binary
                (fun s x _ Hs => proj2 (update_keeps_binary s x Hs))
                xs m Hall Hm) as (Hfin & Hout & _).
    split; assumption. }
  split.
  - intros m Hm. destruct (H11 m Hm) as [A B]. destruct (H10 m Hm) as [C D].
    repeat split; assumption.
  - intros m0 t i. split.
    + apply H11. rewrite V1_1_init_run. cbn. apply neq0_binary.
    + apply H10. rewrite V1_0_init_run. cbn. left. reflexivity.
Qed.

(** One call of either version leaves [time_ref] in place and, when it is
    assigned, appends exactly one entry to the call log; when it is null
    the log and the environment stay as they were. *)
Lemma update_calls_once (m : machine W) (x : Z) (o : Z * machine W) :
  o = run (V1_1.debounce_update REF x) m \/
  o = run (V1_0.debounce_update REF x) m ->
  time_ref (cell (snd o)) = time_ref (cell m) /\
  match time_ref (cell m) with
  | Some f =>
      calls (snd o) = calls m ++ [fst (f (env m))] /\
      env (snd o) = snd (f (env m))
  | None => calls (snd o) = calls m /\ env (snd o) = env m
  end.
Proof.
  intros [-> | ->];
    [rewrite V1_1_update_run | rewrite V1_0_update_run]; cbv zeta;
    destruct (time_ref (cell m)) eqn:Ht;
    destruct (neq0 x =? prev_input (cell m)); cbn; rewrite ?Ht;
    repeat split; reflexivity.
Qed.

(** A stepping operation that calls [time_ref] as the updates do, calls
    it once per sample over a run. *)
Lemma feed_queries (step : Z -> state (machine W) Z) :
  (forall m x,
     time_ref (cell (snd (run (step x) m))) = time_ref (cell m) /\
     match time_ref (cell m) with
     | Some f =>
         calls (snd (run (step x) m)) = calls m ++ [fst (f (env m))] /\
         env (snd (run (step x) m)) = snd (f (env m))
     | None =>
         calls (snd (run (step x) m)) = calls m /\
         env (snd (run (step x) m)) = env m
     end) ->
  forall xs m, queried_per_call xs m (snd (run (feed step xs) m)).
Proof.
  intros Hstep xs. unfold queried_per_call.
  induction xs as [|x xs IH]; intros m.
  - cbn. split; [reflexivity |].
    destruct (time_ref (cell m)); [| split; reflexivity].
    exists []. split; [now rewrite app_nil_r | reflexivity].
  - rewrite feed_cons. cbn [snd].
    destruct (Hstep m x) as [Ht Hc].
    destruct (IH (snd (run (step x) m))) as [IHt IHc].
    rewrite Ht in IHt, IHc.
    split; [exact IHt |].
    destruct (time_ref (cell m)) as [f|].
    + destruct Hc as [Hc _]. destruct IHc as (rs & Hrs & Hlen).
      exists (fst (f (env m)) :: rs). split.
      * rewrite Hrs, Hc, <- app_assoc. reflexivity.
      * cbn. now rewrite Hlen.
    + destruct Hc as [Hc He]. destruct IHc as [IHc IHe].
      split; congruence.
Qed.

(** X3. A run of [n] updates queries an assigned [time_ref] exactly [n]
    times, once per call whether the sample changed or not: the call log
    grows by [n] entries and keeps its earlier ones.  With a null
    [time_ref] a run leaves the call log and the environment as they
    were.  No update changes [time_ref].  Both versions behave so. *)
Theorem debounce_one_query_per_update (xs : list Z) (m : machine W) :
  queried_per_call xs m (snd (run (feed (V1_1.debounce_update REF) xs) m)) /\
  queried_per_call xs m (snd (run (feed (V1_0.debounce_update REF) xs) m)).
Proof.
  split; apply feed_queries; intros s x;
    apply (update_calls_once s x); [left | right]; reflexivity.
Qed.

End DebounceInvariants.

(** X2 at work: version 1.1 resting on 0, fed 4, 4, 0, 9, returns binary
    values only. *)
Lemma debounce_outputs_binary_witness :
  binary (Debounce.stable_output (Debounce.cell idle_low)) /\
  Forall binary
    (fst (run (feed (Debounce.V1_1.debounce_update REF) [4; 4; 0; 9])
              idle_low)).
Proof.
  assert (H : binary (Debounce.stable_output (Debounce.cell idle_low)))
    by (left; reflexivity).
  split; [exact H |].
  exact (proj1 (proj1 (debounce_outputs_binary [4; 4; 0; 9]) idle_low H)).
Defined.

(** ** Debounce filter: the two versions, steady input, bouncing input *)

Section DebounceRegimes.
Context {W : Type}.
Import Debounce.

(** With an assigned [time_ref] one call of version 1.1 is one call of
    version 1.0. *)
Lemma update_versions_agree (m : machine W) (x : Z) :
  time_ref (cell m) <> None ->
  run (V1_1.debounce_update REF x) m = run (V1_0.debounce_update REF x) m.
Proof.
  intros Ht. rewrite V1_1_update_run, V1_0_update_run. cbv zeta.
  destruct (time_ref (cell m)); [reflexivity | contradiction].
Qed.

(** X4. The two versions differ only by the null fallback and the initial
    sample: on a machine whose [time_ref] is assigned, a run of version
    1.1 returns the values and leaves the machine of the same run of
    version 1.0, and initializing version 1.1 on raw 0 is initializing
    version 1.0. *)
Theorem debounce_versions_agree_with_timer (xs : list Z) :
  (forall m : machine W,
     time_ref (cell m) <> None ->
     run (feed (V1_1.debounce_update REF) xs) m =
       run (feed (V1_0.debounce_update REF) xs) m) /\
  (forall (m0 : machine W) (t : option (W -> Z * W)),
     run (V1_1.debounce_init REF t 0) m0 = run (V1_0.debounce_init REF t) m0).
Proof.
  split; [| reflexivity].
  induction xs as [|x xs IH]; intros m Ht; [reflexivity |].
  rewrite !feed_cons, <- (update_versions_agree m x Ht).
  rewrite IH; [reflexivity |].
  destruct (V1_1_update_frame m x) as (_ & -> & _). exact Ht.
Qed.

(** On a settled machine a sample that repeats the settled value changes
    neither [prev_input] nor [stable_output] and is returned. *)
Lemma settled_step (v : Z) (m : machine W) (x : Z) (o : Z * machine W) :
  o = run (V1_1.debounce_update REF x) m \/
  o = run (V1_0.debounce_update REF x) m ->
  neq0 x = v ->
  prev_input (cell m) = v /\ stable_output (cell m) = v ->
  (prev_input (cell (snd o)) = v /\ stable_output (cell (snd o)) = v) /\
  fst o = v.
Proof.
  intros Ho Hx [Hp Hs].
  assert (E : (neq0 x =? prev_input (cell m)) = true)
    by (apply Z.eqb_eq; congruence).
  destruct Ho as [-> | ->];
    [rewrite V1_1_update_run | rewrite V1_0_update_run]; cbv zeta; rewrite E;
    destruct (time_ref (cell m)) as [f|]; cbn;
    try destruct (fst (f (env m)) =? 0); repeat split; congruence.
Qed.

(** X5. Once the filter has settled on a value ([prev_input] and
    [stable_output] both hold it), samples that keep normalizing to that
    value never move it: every call returns the value and [prev_input]
    and [stable_output] keep it, whatever the timing function answers, in
    both versions. *)
Theorem debounce_settled_is_stable (v : Z) (xs : list Z) (m : machine W) :
  prev_input (cell m) = v ->
  stable_output (cell m) = v ->
  Forall (fun x => neq0 x = v) xs ->
  (frozen_at v xs (run (feed (V1_1.debounce_update REF) xs) m) /\
   prev_input (cell (snd (run (feed (V1_1.debounce_update REF) xs) m))) = v) /\
  (frozen_at v xs (run (feed (V1_0.debounce_update REF) xs) m) /\
   prev_input (cell (snd (run (feed (V1_0.debounce_update REF) xs) m))) = v).
Proof.
  intros Hp Hs Hxs. unfold frozen_at. split.
  - destruct (feed_guarded (V1_1.debounce_update REF) (fun x => neq0 x = v)
                (fun s => prev_input (cell s) = v /\ stable_output (cell s) = v)
                (fun r => r = v)
                (fun s x Hx Hinv =>
                   settled_step v s x _ (or_introl eq_refl) Hx Hinv)
                xs m Hxs (conj Hp Hs)) as ((Hp' & Hs') & Hall & Hlen).
    repeat split; assumption.
  - destruct (feed_guarded (V1_0.debounce_update REF) (fun x => neq0 x = v)
                (fun s => prev_input (cell s) = v /\ stable_output (cell s) = v)
                (fun r => r = v)
                (fun s x Hx Hinv =>
                   settled_step v s x _ (or_intror eq_refl) Hx Hinv)
                xs m Hxs (conj Hp Hs)) as ((Hp' & Hs') & Hall & Hlen).
    repeat split; assumption.
Qed.

(** A sample that differs from [prev_input] is stored and the
    [stable_output] found is returned and kept. *)
Lemma bounce_step (m : machine W) (x : Z) (o : Z * machine W) :
  o = run (V1_1.debounce_update REF x) m \/
  o = run (V1_0.debounce_update REF x) m ->
  neq0 x <> prev_input (cell m) ->
  prev_input (cell (snd o)) = neq0 x /\
  stable_output (cell (snd o)) = stable_output (cell m) /\
  fst o = stable_output (cell m).
Proof.
  intros Ho Hx. apply Z.eqb_neq in Hx.
  destruct Ho as [-> | ->];
    [rewrite V1_1_update_run | rewrite V1_0_update_run]; cbv zeta; rewrite Hx;
    destruct (time_ref (cell m)); cbn; repeat split; reflexivity.
Qed.

(** A stepping operation that behaves as the updates do on a changed
    sample never moves [stable_output] over a bouncing run. *)
Lemma feed_bouncing (step : Z -> state (machine W) Z) :
  (forall m x, neq0 x <> prev_input (cell m) ->
     prev_input (cell (snd (run (step x) m))) = neq0 x /\
     stable_output (cell (snd (run (step x) m))) = stable_output (cell m) /\
     fst (run (step x) m) = stable_output (cell m)) ->
  forall xs m, bouncing (prev_input (cell m)) xs ->
    frozen_at (stable_output (cell m)) xs (run (feed step xs) m).
Proof.
  intros Hstep xs. unfold frozen_at.
  induction xs as [|x xs IH]; intros m Hb.
  - repeat split. constructor.
  - destruct Hb as [Hx Hb].
    destruct (Hstep m x Hx) as (Hp & Hs & Hr).
    rewrite <- Hp in Hb. destruct (IH _ Hb) as (Hlen & Hall & Hfin).
    rewrite Hs in Hall, Hfin.
    rewrite feed_cons. cbn [fst snd length].
    repeat split; [now rewrite Hlen | constructor; assumption | assumption].
Qed.

(** X6. Bounce rejection: over a run in which every sample differs from
    the one before it (the first from [prev_input]), every call returns
    the [stable_output] the run started with and leaves it in place,
    whatever the timing function answers, null [time_ref] included, in
    both versions. *)
Theorem debounce_rejects_bouncing (xs : list Z) (m : machine W) :
  bouncing (prev_input (cell m)) xs ->
  frozen_at (stable_output (cell m)) xs
            (run (feed (V1_1.debounce_update REF) xs) m) /\
  frozen_at (stable_output (cell m)) xs
            (run (feed (V1_0.debounce_update REF) xs) m).
Proof.
  intros Hb. split; apply feed_bouncing; try exact Hb;
    intros s x Hx; apply (bounce_step s x); auto.
Qed.

End DebounceRegimes.

(** X4 at work: on the machine with the counting timing function, both
    versions answer alike to 1, 1, 0, 0. *)
Lemma debounce_versions_agree_with_timer_witness :
  Debounce.time_ref (Debounce.cell idle_low) <> None /\
  run (feed (Debounce.V1_1.debounce_update REF) [1; 1; 0; 0]) idle_low =
    run (feed (Debounce.V1_0.debounce_update REF) [1; 1; 0; 0]) idle_low.
Proof.
  assert (H : Debounce.time_ref (Debounce.cell idle_low) <> None)
    by discriminate.
  split; [exact H |].
  exact (proj1 (debounce_versions_agree_with_timer [1; 1; 0; 0]) idle_low H).
Defined.

(** X5 at work: settled on 0, the always-true timing function assigned,
    the samples 0, 0, 0 return 0. *)
Lemma debounce_settled_is_stable_witness :
  Debounce.prev_input (Debounce.cell idle_low) = 0 /\
  Debounce.stable_output (Debounce.cell idle_low) = 0 /\
  Forall (fun x => neq0 x = 0) [0; 0; 0] /\
  frozen_at 0 [0; 0; 0]
    (run (feed (Debounce.V1_1.debounce_update REF) [0; 0; 0]) idle_low).
Proof.
  assert (Hxs : Forall (fun x => neq0 x = 0) [0; 0; 0])
    by (repeat constructor).
  split; [reflexivity |]. split; [reflexivity |]. split; [exact Hxs |].
  exact (proj1 (proj1 (debounce_settled_is_stable 0 [0; 0; 0] idle_low
                         eq_refl eq_refl Hxs))).
Defined.

(** X6 at work: resting on 0 with the always-true timing function, the
    bouncing samples 1, 0, 1, 0, 1 all return 0. *)
Lemma debounce_rejects_bouncing_witness :
  bouncing (Debounce.prev_input (Debounce.cell idle_low)) [1; 0; 1; 0; 1] /\
  frozen_at 0 [1; 0; 1; 0; 1]
    (run (feed (Debounce.V1_1.debounce_update REF) [1; 0; 1; 0; 1]) idle_low).
Proof.
  assert (Hb : bouncing (Debounce.prev_input (Debounce.cell idle_low))
                        [1; 0; 1; 0; 1])
    by (cbn; repeat split; discriminate).
  split; [exact Hb |].
  exact (proj1 (debounce_rejects_bouncing [1; 0; 1; 0; 1] idle_low Hb)).
Defined.

(** ** Edge detector: runs *)

Section EdgeRuns.
Context {W : Type}.
Import Edge.

(** A sample that normalizes to [prev] is no edge and leaves the whole
    machine as it was. *)
Lemma edge_update_steady (m : machine W) (x : Z) :
  norm01 x = prev (cell m) ->
  run (edge_update REF x) m = (EDGE_NONE, m).
Proof.
  intros Hx. rewrite edge_update_run. cbv zeta. rewrite Hx.
  unfold edge_between.
  destruct (Z.eqb_spec (prev (cell m)) 0) as [E0|E0];
    destruct (Z.eqb_spec (prev (cell m)) 1) as [E1|E1];
    try (exfalso; lia); cbn;
    destruct m as [[p rc fc cb] e l]; reflexivity.
Qed.

(** X7. While the samples keep normalizing to [prev], [edge_update]
    reports no edge and [edge_both] answers 0 on every call, and the run
    leaves the whole machine as it found it: counters, [prev], callback,
    environment and call log. *)
Theorem edge_steady_input_is_silent (xs : list Z) (m : machine W) :
  Forall (fun x => norm01 x = prev (cell m)) xs ->
  run (feed (edge_update REF) xs) m = (repeat EDGE_NONE (length xs), m) /\
  run (feed (edge_both REF) xs) m = (repeat 0 (length xs), m).
Proof.
  intros Hxs. induction Hxs as [|x xs Hx Hxs [IHu IHb]].
  - split; reflexivity.
  - assert (Hb : run (edge_both REF x) m = (0, m)).
    { destruct (edge_both_is_one_step m x) as [Hs Hf].
      rewrite (edge_update_steady m x Hx) in Hs, Hf.
      rewrite (surjective_pairing (run (edge_both REF x) m)), Hs, Hf.
      reflexivity. }
    split; rewrite feed_cons.
    + rewrite (edge_update_steady m x Hx). cbn [fst snd]. rewrite IHu.
      reflexivity.
    + rewrite Hb. cbn [fst snd]. rewrite IHb. reflexivity.
Qed.

(** The callback, the call log and the environment after one
    [edge_update]. *)
Lemma edge_update_effects (m : machine W) (x : Z) :
  let t := fst (run (edge_update REF x) m) in
  let m' := snd (run (edge_update REF x) m) in
  t <> EDGE_BOTH /\
  on_edge (cell m') = on_edge (cell m) /\
  match on_edge (cell m) with
  | Some g =>
      calls m' = calls m ++ detected [t] /\
      env m' = fold_left (fun e u => g u e) (detected [t]) (env m)
  | None => calls m' = calls m /\ env m' = env m
  end.
Proof.
  cbv zeta. rewrite edge_update_run. cbv zeta. unfold notified.
  destruct (edge_between (prev (cell m)) (norm01 x));
    destruct (on_edge (cell m)); cbn;
    rewrite ?app_nil_r; repeat split; try reflexivity; discriminate.
Qed.

(** X8. Over a run of [edge_update] an assigned callback is called once
    per detected edge, in order, with Rising or Falling and nothing else:
    the call log grows by exactly the non-None classifications returned,
    and the environment is the one those calls produce in turn.  With no
    callback the call log and the environment stay as they were.  No
    [edge_update] returns [EDGE_BOTH] or changes [on_edge]. *)
Theorem edge_callback_sees_each_edge (xs : list Z) (m : machine W) :
  let outs := fst (run (feed (edge_update REF) xs) m) in
  let m' := snd (run (feed (edge_update REF) xs) m) in
  length outs = length xs /\
  Forall (fun t => t <> EDGE_BOTH) outs /\
  Forall (fun t => t = EDGE_RISING \/ t = EDGE_FALLING) (detected outs) /\
  on_edge (cell m') = on_edge (cell m) /\
  match on_edge (cell m) with
  | Some g =>
      calls m' = calls m ++ detected outs /\
      env m' = fold_left (fun e u => g u e) (detected outs) (env m)
  | None => calls m' = calls m /\ env m' = env m
  end.
Proof.
  cbv zeta. revert m. induction xs as [|x xs IH]; intros m.
  - cbn. repeat split; try constructor.
    destruct (on_edge (cell m)); cbn; rewrite ?app_nil_r; split; reflexivity.
  - rewrite feed_cons. cbn [fst snd].
    destruct (edge_update_effects m x) as (Hnb & Hcb & Heff).
    destruct (IH (snd (run (edge_update REF x) m)))
      as (Hlen & Hall & Hdet & Hcb' & Heff').
    rewrite Hcb in Hcb', Heff'.
    assert (Hd1 : Forall (fun t => t = EDGE_RISING \/ t = EDGE_FALLING)
                         (detected [fst (run (edge_update REF x) m)])).
    { revert Hnb. destruct (fst (run (edge_update REF x) m)); intros Hnb;
        cbn; try (exfalso; apply Hnb; reflexivity);
        [ constructor
        | constructor; [left; reflexivity | constructor]
        | constructor; [right; reflexivity | constructor] ]. }
    set (t := fst (run (edge_update REF x) m)) in *.
    set (m1 := snd (run (edge_update REF x) m)) in *.
    set (outs := fst (run (feed (edge_update REF) xs) m1)) in *.
    assert (Hsplit : detected (t :: outs) = detected [t] ++ detected outs)
      by (unfold detected; cbn; destruct (EdgeType_eqb t EDGE_NONE);
          reflexivity).
    split; [cbn; now rewrite Hlen |].
    split; [constructor; assumption |].
    split.
    { rewrite Hsplit. apply Forall_app. split; assumption. }
    split; [exact Hcb' |].
    destruct (on_edge (cell m)) as [g|].
    + destruct Heff as [Hc He]. destruct Heff' as [Hc' He'].
      rewrite Hsplit, fold_left_app, <- He, app_assoc, <- Hc.
      split; assumption.
    + destruct Heff as [Hc He]. destruct Heff' as [Hc' He'].
      split; congruence.
Qed.

End EdgeRuns.

(** X7 at work: resting on 0 after five rising edges, the samples 0, 0, 0
    leave the machine untouched. *)
Lemma edge_steady_input_is_silent_witness :
  Forall (fun x => Edge.norm01 x = Edge.prev (Edge.cell seen_edges))
         [0; 0; 0] /\
  run (feed (Edge.edge_update REF) [0; 0; 0]) seen_edges =
    ([Edge.EDGE_NONE; Edge.EDGE_NONE; Edge.EDGE_NONE], seen_edges).
Proof.
  assert (H : Forall (fun x => Edge.norm01 x =
                               Edge.prev (Edge.cell seen_edges)) [0; 0; 0])
    by (repeat constructor).
  split; [exact H |].
  exact (proj1 (edge_steady_input_is_silent [0; 0; 0] seen_edges H)).
Defined.

(** ** Edge detector: counters over a run *)

Section EdgeCounting.
Context {W : Type}.
Import Edge.

(** The 32-bit successor is a 32-bit value. *)
Lemma incr_u32_range (n : Z) : is_u32 (incr_u32 n).
Proof.
  unfold is_u32, incr_u32. apply Z.mod_pos_bound.
  change (2 ^ 32) with 4294967296. lia.
Qed.

(** One [edge_update] keeps the counters 32-bit values. *)
Lemma edge_update_keeps_u32 (m : machine W) (x : Z) :
  is_u32 (rise_count (cell m)) ->
  is_u32 (fall_count (cell m)) ->
  is_u32 (rise_count (cell (snd (run (edge_update REF x) m)))) /\
  is_u32 (fall_count (cell (snd (run (edge_update REF x) m)))).
Proof.
  intros Hr Hf. destruct (edge_update_counters m x) as [-> ->].
  destruct (fst (run (edge_update REF x) m)); cbn [EdgeType_eqb];
    split; auto using incr_u32_range.
Qed.

(** Counting one more classification. *)
Lemma count_edge_cons (t u : EdgeType) (l : list EdgeType) :
  Z.of_nat (count_edge t (u :: l)) =
    (if EdgeType_eqb u t then 1 else 0) + Z.of_nat (count_edge t l).
Proof.
  unfold count_edge. cbn [filter].
  destruct t, u; cbn [EdgeType_eqb length]; lia.
Qed.

(** Adding [n] to a counter after its 32-bit increment. *)
Lemma incr_u32_add (c n : Z) :
  (incr_u32 c + n) mod 2 ^ 32 = (c + (1 + n)) mod 2 ^ 32.
Proof.
  unfold incr_u32. rewrite Z.add_mod_idemp_l.
  - f_equal. lia.
  - change (2 ^ 32) with 4294967296. lia.
Qed.

(** X9. Over a run of [edge_update] started with 32-bit counters,
    [rise_count] ends at its start value plus the number of Rising
    classifications returned, modulo 2^32, and [fall_count] at its start
    value plus the number of Falling ones, modulo 2^32: the counters
    count the reported edges and wrap silently. *)
Theorem edge_counters_count_reported_edges (xs : list Z) (m : machine W) :
  is_u32 (rise_count (cell m)) ->
  is_u32 (fall_count (cell m)) ->
  let outs := fst (run (feed (edge_update REF) xs) m) in
  let m' := snd (run (feed (edge_update REF) xs) m) in
  rise_count (cell m') =
    (rise_count (cell m) + Z.of_nat (count_edge EDGE_RISING outs)) mod 2 ^ 32 /\
  fall_count (cell m') =
    (fall_count (cell m) + Z.of_nat (count_edge EDGE_FALLING outs)) mod 2 ^ 32.
Proof.
  cbv zeta. revert m. induction xs as [|x xs IH]; intros m Hr Hf.
  - cbn. rewrite !Z.add_0_r, !Z.mod_small; auto.
  - rewrite feed_cons. cbn [fst snd].
    destruct (edge_update_counters m x) as [Er Ef].
    destruct (edge_update_keeps_u32 m x Hr Hf) as [Hr1 Hf1].
    destruct (IH _ Hr1 Hf1) as [IHr IHf].
    rewrite IHr, IHf, Er, Ef, !count_edge_cons.
    destruct (fst (run (edge_update REF x) m));
      cbn [EdgeType_eqb]; rewrite ?incr_u32_add; split; reflexivity.
Qed.

(** One [edge_update] on a binary [prev] moves [prev] up by one on
    Rising, down by one on Falling, and not at all on None. *)
Lemma edge_update_balance (m : machine W) (x : Z) :
  binary (prev (cell m)) ->
  binary (prev (cell (snd (run (edge_update REF x) m)))) /\
  Z.of_nat (count_edge EDGE_RISING [fst (run (edge_update REF x) m)]) -
  Z.of_nat (count_edge EDGE_FALLING [fst (run (edge_update REF x) m)]) =
    prev (cell (snd (run (edge_update REF x) m))) - prev (cell m).
Proof.
  intros Hp. rewrite edge_update_prev, edge_update_result.
  split; [exact (norm01_01 x) |].
  destruct Hp as [-> | ->]; destruct (norm01_01 x) as [-> | ->];
    reflexivity.
Qed.

(** X10. Edges alternate: over a run of [edge_update] started from a
    binary [prev], the number of Rising classifications minus the number
    of Falling ones is the final [prev] minus the initial one, so the two
    numbers differ by at most one, and [prev] is still binary. *)
Theorem edge_rises_and_falls_alternate (xs : list Z) (m : machine W) :
  binary (prev (cell m)) ->
  let outs := fst (run (feed (edge_update REF) xs) m) in
  let m' := snd (run (feed (edge_update REF) xs) m) in
  binary (prev (cell m')) /\
  Z.of_nat (count_edge EDGE_RISING outs) -
  Z.of_nat (count_edge EDGE_FALLING outs) = prev (cell m') - prev (cell m) /\
  -1 <= Z.of_nat (count_edge EDGE_RISING outs) -
        Z.of_nat (count_edge EDGE_FALLING outs) <= 1.
Proof.
  cbv zeta. intros Hp.
  assert (H : binary (prev (cell (snd (run (feed (edge_update REF) xs) m)))) /\
              Z.of_nat (count_edge EDGE_RISING
                          (fst (run (feed (edge_update REF) xs) m))) -
              Z.of_nat (count_edge EDGE_FALLING
                          (fst (run (feed (edge_update REF) xs) m))) =
              prev (cell (snd (run (feed (edge_update REF) xs) m))) -
              prev (cell m)).
  { revert m Hp. induction xs as [|x xs IH]; intros m Hp.
    - cbn. split; [exact Hp | lia].
    - rewrite feed_cons. cbn [fst snd].
      destruct (edge_update_balance m x Hp) as [Hp1 Hb1].
      destruct (IH _ Hp1) as [Hp' Hb'].
      split; [exact Hp' |].
      rewrite !count_edge_cons.
      rewrite !count_edge_cons in Hb1.
      change (Z.of_nat (count_edge EDGE_RISING [])) with 0 in Hb1.
      change (Z.of_nat (count_edge EDGE_FALLING [])) with 0 in Hb1.
      lia. }
  destruct H as [Hp' Hb]. split; [exact Hp' |]. split; [exact Hb |].
  rewrite Hb. destruct Hp as [-> | ->]; destruct Hp' as [-> | ->]; lia.
Qed.

End EdgeCounting.

(** X9 at work: from five rising and three falling edges counted, the
    samples 1, 0, 1 bring the counters to 7 and 4. *)
Lemma edge_counters_count_reported_edges_witness :
  is_u32 (Edge.rise_count (Edge.cell seen_edges)) /\
  is_u32 (Edge.fall_count (Edge.cell seen_edges)) /\
  Edge.rise_count
    (Edge.cell (snd (run (feed (Edge.edge_update REF) [1; 0; 1]) seen_edges)))
    = (5 + 2) mod 2 ^ 32 /\
  Edge.fall_count
    (Edge.cell (snd (run (feed (Edge.edge_update REF) [1; 0; 1]) seen_edges)))
    = (3 + 1) mod 2 ^ 32.
Proof.
  assert (Hr : is_u32 (Edge.rise_count (Edge.cell seen_edges)))
    by (cbv; split; [discriminate | reflexivity]).
  assert (Hf : is_u32 (Edge.fall_count (Edge.cell seen_edges)))
    by (cbv; split; [discriminate | reflexivity]).
  split; [exact Hr |]. split; [exact Hf |].
  exact (edge_counters_count_reported_edges [1; 0; 1] seen_edges Hr Hf).
Defined.

(** X10 at work: from rest on 0, the samples 1, 0, 1, 1, 0, 1 report
    three rising and two falling edges and end on 1. *)
Lemma edge_rises_and_falls_alternate_witness :
  binary (Edge.prev (Edge.cell seen_edges)) /\
  Z.of_nat (count_edge Edge.EDGE_RISING
              (fst (run (feed (Edge.edge_update REF) [1; 0; 1; 1; 0; 1])
                        seen_edges))) -
  Z.of_nat (count_edge Edge.EDGE_FALLING
              (fst (run (feed (Edge.edge_update REF) [1; 0; 1; 1; 0; 1])
                        seen_edges))) = 1 - 0.
Proof.
  assert (Hp : binary (Edge.prev (Edge.cell seen_edges)))
    by (left; reflexivity).
  split; [exact Hp |].
  exact (proj1 (proj2 (edge_rises_and_falls_alternate [1; 0; 1; 1; 0; 1]
                         seen_edges Hp))).
Defined.

(** ** Edge detector: field ranges and counter wrap *)

Section EdgeRanges.
Context {W : Type}.
Import Edge.

(** X11. Every entry point keeps the fields within their C types ([prev]
    a [uint8_t], the counters [uint32_t]), and [edge_init] brings them
    there from any content.  At the top of the range the counter wraps
    without losing the edge: with [rise_count] at 2^32 - 1 a rising edge
    is still classified Rising and leaves [rise_count] at 0, and likewise
    for [fall_count] on a falling edge. *)
Theorem edge_fields_stay_in_range (m : machine W) :
  (forall o : operation,
     edge_ranges (cell m) -> edge_ranges (cell (snd (run (perform o) m)))) /\
  (forall i : Z, edge_ranges (cell (snd (run (edge_init REF i) m)))) /\
  (forall x : Z,
     prev (cell m) = 0 -> x <> 0 -> rise_count (cell m) = 2 ^ 32 - 1 ->
     fst (run (edge_update REF x) m) = EDGE_RISING /\
     rise_count (cell (snd (run (edge_update REF x) m))) = 0) /\
  (prev (cell m) = 1 -> fall_count (cell m) = 2 ^ 32 - 1 ->
   fst (run (edge_update REF 0) m) = EDGE_FALLING /\
   fall_count (cell (snd (run (edge_update REF 0) m))) = 0).
Proof.
  assert (Hnorm : forall x, is_u8 (norm01 x))
    by (intros x; unfold is_u8; destruct (norm01_01 x) as [-> | ->]; lia).
  assert (Hzero : is_u32 0) by (unfold is_u32; cbn; lia).
  assert (Hupd : forall x, edge_ranges (cell m) ->
                           edge_ranges (cell (snd (run (edge_update REF x) m)))).
  { intros x (Hp & Hr & Hf). unfold edge_ranges.
    rewrite edge_update_prev.
    destruct (edge_update_keeps_u32 m x Hr Hf) as [Hr' Hf'].
    split; [apply Hnorm | split; assumption]. }
  split; [| split; [| split]].
  - intros o Hm. destruct o; cbn [perform].
    + split; [apply Hnorm | split; exact Hzero].
    + rewrite run_bind. cbn [run runState ret Monad_state snd]. apply Hupd, Hm.
    + rewrite run_bind. cbn [run runState ret Monad_state snd].
      destruct (edge_both_is_one_step m input) as [-> _]. apply Hupd, Hm.
    + destruct Hm as (Hp & _ & _).
      split; [exact Hp | split; exact Hzero].
    + exact Hm.
    + exact Hm.
  - intros i. split; [apply Hnorm | split; exact Hzero].
  - intros x Hp Hx Hr.
    destruct (edge_update_counters m x) as [Er _].
    rewrite Er, edge_update_result, Hp, (norm01_nonzero x Hx), Hr.
    split; reflexivity.
  - intros Hp Hf.
    destruct (edge_update_counters m 0) as [_ Ef].
    rewrite Ef, edge_update_result, Hp, Hf.
    split; reflexivity.
Qed.

End EdgeRanges.

(** X11 at work: the machine with counters 5 and 3 is within range, and
    stays so after a classified sample. *)
Lemma edge_fields_stay_in_range_witness :
  edge_ranges (Edge.cell seen_edges) /\
  edge_ranges
    (Edge.cell (snd (run (Edge.perform (Edge.Classify 1)) seen_edges))).
Proof.
  assert (H : edge_ranges (Edge.cell seen_edges))
    by (cbv; repeat split; discriminate || reflexivity).
  split; [exact H |].
  exact (proj1 (edge_fields_stay_in_range seen_edges) (Edge.Classify 1) H).
Defined.

(** ** Edge detector, first version: the three queries *)

Section BasicQueries.
Context {W : Type}.

(** Every query of the first version leaves the normalized sample in
    [prev]. *)
Lemma ask_prev (q : basic_query) (x : Z) (d : EdgeBasic.EdgeDetector) :
  snd (run (ask q x) d) = EdgeBasic.mkEdgeDetector (EdgeBasic.norm01 x).
Proof. destruct q; reflexivity. Qed.

(** What a query of the first version answers. *)
Lemma ask_result (q : basic_query) (x : Z) (d : EdgeBasic.EdgeDetector) :
  fst (run (ask q x) d) =
    match q with
    | AskRise =>
        of_bool (truthy (EdgeBasic.norm01 x) && (EdgeBasic.prev d =? 0))
    | AskFall =>
        of_bool ((EdgeBasic.prev d =? 1) && (EdgeBasic.norm01 x =? 0))
    | AskBoth => of_bool (negb (EdgeBasic.norm01 x =? EdgeBasic.prev d))
    end.
Proof. destruct q; reflexivity. Qed.

(** The first version's normalization yields 0 or 1. *)
Lemma basic_norm01_01 (x : Z) :
  EdgeBasic.norm01 x = 0 \/ EdgeBasic.norm01 x = 1.
Proof. exact (norm01_01 x). Qed.

(** X12. In the first version every query consumes the sample: after
    any of [edge_rise], [edge_fall], [edge_both] has been called with a
    sample, a second query with the same sample (or one that normalizes
    alike) answers 0, whichever query it is and whatever [prev] was.  So
    calling [edge_rise] and then [edge_fall] on one sample never reports
    a falling edge. *)
Theorem basic_second_query_sees_no_edge
        (q1 q2 : basic_query) (x y : Z) (d : EdgeBasic.EdgeDetector) :
  EdgeBasic.norm01 y = EdgeBasic.norm01 x ->
  fst (run (ask q1 x ;; ask q2 y) d) = 0 /\
  snd (run (ask q1 x ;; ask q2 y) d) = snd (run (ask q1 x) d).
Proof.
  intros Hy. rewrite run_bind, ask_result, !ask_prev, Hy.
  cbn [EdgeBasic.prev]. split; [| reflexivity].
  destruct q2; destruct (basic_norm01_01 x) as [-> | ->]; reflexivity.
Qed.

(** One query of the first version against one [edge_update] of the
    advanced version on the same [prev]. *)
Lemma basic_step_matches (m : Edge.machine W) (x : Z) :
  let t := fst (run (Edge.edge_update REF x) m) in
  let d := basic_of (Edge.cell m) in
  fst (run (EdgeBasic.edge_rise REF x) d) =
    of_bool (Edge.EdgeType_eqb t Edge.EDGE_RISING) /\
  fst (run (EdgeBasic.edge_fall REF x) d) =
    of_bool (Edge.EdgeType_eqb t Edge.EDGE_FALLING) /\
  forall q, snd (run (ask q x) d) =
            basic_of (Edge.cell (snd (run (Edge.edge_update REF x) m))).
Proof.
  cbv zeta. rewrite edge_update_result.
  split; [| split;
            [| intros q; rewrite ask_prev; unfold basic_of;
               rewrite edge_update_prev; reflexivity]].
  - change (fst (run (EdgeBasic.edge_rise REF x) (basic_of (Edge.cell m))))
      with (of_bool (truthy (Edge.norm01 x) && (Edge.prev (Edge.cell m) =? 0))).
    unfold edge_between.
    destruct (Edge.prev (Edge.cell m) =? 0);
      destruct (Edge.prev (Edge.cell m) =? 1);
      destruct (norm01_01 x) as [-> | ->]; reflexivity.
  - change (fst (run (EdgeBasic.edge_fall REF x) (basic_of (Edge.cell m))))
      with (of_bool ((Edge.prev (Edge.cell m) =? 1) && (Edge.norm01 x =? 0))).
    unfold edge_between.
    destruct (Z.eqb_spec (Edge.prev (Edge.cell m)) 0) as [E0|E0];
      destruct (Z.eqb_spec (Edge.prev (Edge.cell m)) 1) as [E1|E1];
      try (exfalso; lia);
      destruct (norm01_01 x) as [-> | ->]; reflexivity.
Qed.

(** X13. Used one query per sample, the first version reports what the
    advanced version classifies: over any run from the same [prev],
    whatever its value, [edge_rise] answers 1 exactly on the samples
    [edge_update] classifies Rising and [edge_fall] exactly on those it
    classifies Falling, and both versions end on the same [prev]. *)
Theorem basic_queries_match_classification (xs : list Z)
        (m : Edge.machine W) :
  let outs := fst (run (feed (Edge.edge_update REF) xs) m) in
  let m' := snd (run (feed (Edge.edge_update REF) xs) m) in
  let d := basic_of (Edge.cell m) in
  run (feed (EdgeBasic.edge_rise REF) xs) d =
    (map (fun t => of_bool (Edge.EdgeType_eqb t Edge.EDGE_RISING)) outs,
     basic_of (Edge.cell m')) /\
  run (feed (EdgeBasic.edge_fall REF) xs) d =
    (map (fun t => of_bool (Edge.EdgeType_eqb t Edge.EDGE_FALLING)) outs,
     basic_of (Edge.cell m')).
Proof.
  cbv zeta. revert m. induction xs as [|x xs IH]; intros m.
  - split; reflexivity.
  - destruct (basic_step_matches m x) as (Hr & Hf & Hs).
    destruct (IH (snd (run (Edge.edge_update REF x) m))) as [IHr IHf].
    pose proof (Hs AskRise) as HsR. pose proof (Hs AskFall) as HsF.
    cbn [ask] in HsR, HsF.
    rewrite !feed_cons. cbn [fst snd map].
    rewrite Hr, Hf, HsR, HsF, IHr, IHf.
    split; reflexivity.
Qed.

End BasicQueries.

(** X12 at work: on a detector resting on 1, [edge_rise] then
    [edge_fall] on the sample 0 answers 0: the falling edge is lost. *)
Lemma basic_second_query_sees_no_edge_witness :
  EdgeBasic.norm01 0 = EdgeBasic.norm01 0 /\
  fst (run (EdgeBasic.edge_rise REF 0 ;; EdgeBasic.edge_fall REF 0)
           (EdgeBasic.mkEdgeDetector 1)) = 0 /\
  fst (run (EdgeBasic.edge_fall REF 0) (EdgeBasic.mkEdgeDetector 1)) = 1.
Proof.
  split; [reflexivity |].
  split; [| reflexivity].
  exact (proj1 (basic_second_query_sees_no_edge AskRise AskFall 0 0
                  (EdgeBasic.mkEdgeDetector 1) eq_refl)).
Defined.
